(** * Labspace generator: detection engine and artifact synthesizer

    A shallow embedding of [RepositoryAnalyzer] and [LabspaceGenerator]
    from [src/server.js], with the properties of the specification stated
    over it.

    Conventions of the embedding:
    - a JavaScript string is a [string] holding the UTF-8 bytes of the text
      ([fetchFileContent] decodes the manifest as UTF-8);
    - a JavaScript array is a [list]; an object used as a record is a
      [Record]; an object used as a dictionary is either a [gmap] (when only
      lookups matter) or an ordered association list (when key order is
      observable through [Object.keys]);
    - a function that can throw returns a [Result];
    - network access ([fetchFileContent]) is an oracle [string -> option string],
      [None] standing for a rejected request. *)

From Stdlib Require Import String Ascii List NArith ZArith QArith Bool Lia DecimalString.
From stdpp Require Import base option list strings gmap.
Import ListNotations.

Local Open Scope string_scope.
Local Open Scope list_scope.

(** ** JavaScript string primitives *)

Module JsString.

Definition chars (s : string) : list ascii := list_ascii_of_string s.
Definition str (l : list ascii) : string := string_of_list_ascii l.
Definition code (c : ascii) : N := N_of_ascii c.

(** The double-quote character, and a string holding just it. *)
Definition dquote : ascii := ascii_of_N 34.
Definition dq : string := String dquote EmptyString.
Definition nl : string := String (ascii_of_N 10) EmptyString.

(** [s.startsWith(p)] *)
Definition startsWith (s p : string) : bool := String.prefix p s.

(** [s.endsWith(p)] *)
Definition endsWith (s p : string) : bool :=
  String.prefix (str (rev (chars p))) (str (rev (chars s))).

(** [s.includes(p)] *)
Fixpoint includes (s p : string) : bool :=
  String.prefix p s ||
  match s with
  | EmptyString => false
  | String _ r => includes r p
  end.

(** [s.split('\n')]: never empty, one more piece than there are newlines. *)
Fixpoint split_newline (s : string) : list string :=
  match s with
  | EmptyString => [EmptyString]
  | String c r =>
      if (code c =? 10)%N then EmptyString :: split_newline r
      else match split_newline r with
           | h :: t => String c h :: t
           | [] => [String c EmptyString]
           end
  end.

(** [s.split(sep)[0]] for a non-empty separator: the text before the first
    occurrence of [sep], the whole of [s] when there is none. *)
Fixpoint split_head (sep s : string) : string :=
  if String.prefix sep s then EmptyString
  else match s with
       | EmptyString => EmptyString
       | String c r => String c (split_head sep r)
       end.

(** White space and line terminators of ECMAScript, as UTF-8 byte
    sequences of one, two and three bytes. *)
Definition is_ws1 (a : ascii) : bool :=
  let n := code a in
  ((9 <=? n) && (n <=? 13) || (n =? 32))%N.

Definition is_ws2 (a b : ascii) : bool :=
  ((code a =? 194) && (code b =? 160))%N.

Definition is_ws3 (a b c : ascii) : bool :=
  let x := code a in let y := code b in let z := code c in
  ((x =? 225) && (y =? 154) && (z =? 128)
   || (x =? 226) && (y =? 128)
      && ((128 <=? z) && (z <=? 138) || (z =? 168) || (z =? 169) || (z =? 175))
   || (x =? 226) && (y =? 129) && (z =? 159)
   || (x =? 227) && (y =? 128) && (z =? 128)
   || (x =? 239) && (y =? 187) && (z =? 191))%N.

(** Strip white space from the front of a byte list.  With [fwd = false]
    the list is read back to front, so multi-byte sequences are matched
    in reverse. *)
Fixpoint strip_ws (fwd : bool) (l : list ascii) : list ascii :=
  match l with
  | [] => []
  | a :: r1 =>
      if is_ws1 a then strip_ws fwd r1
      else
        match r1 with
        | [] => l
        | b :: r2 =>
            if (if fwd then is_ws2 a b else is_ws2 b a) then strip_ws fwd r2
            else
              match r2 with
              | [] => l
              | c :: r3 =>
                  if (if fwd then is_ws3 a b c else is_ws3 c b a)
                  then strip_ws fwd r3
                  else l
              end
        end
  end.

(** [s.trim()] *)
Definition trim (s : string) : string :=
  str (rev (strip_ws false (rev (strip_ws true (chars s))))).

Definition is_digit (c : ascii) : bool :=
  ((48 <=? code c) && (code c <=? 57))%N.

(** Longest run of decimal digits at the front, and what follows it. *)
Fixpoint span_digits (l : list ascii) : list ascii * list ascii :=
  match l with
  | c :: r =>
      if is_digit c
      then let '(d, rest) := span_digits r in (c :: d, rest)
      else ([], l)
  | [] => ([], [])
  end.

(** [String(n)] for a non-negative integer below 10^21. *)
Definition of_N (n : N) : string :=
  NilEmpty.string_of_uint (N.to_uint n).

(** [xs.join(sep)] *)
Fixpoint join (sep : string) (xs : list string) : string :=
  match xs with
  | [] => EmptyString
  | [x] => x
  | x :: r => x +:+ sep +:+ join sep r
  end.

End JsString.

Import JsString.

(** ** Results of computations that may throw *)

Inductive JsError : Type :=
| SyntaxError                 (* [JSON.parse] on text that is not JSON *)
| TypeError                   (* property access on [null] *)
| AnalysisFailed (cause : JsError).
                              (* [Failed to analyze repository: ...] *)

Inductive Result (A : Type) : Type :=
| Ok (a : A)
| Throw (e : JsError).

Arguments Ok {A} a.
Arguments Throw {A} e.

#[global] Instance Result_ret : MRet Result := fun _ a => Ok a.

#[global] Instance Result_bind : MBind Result := fun _ _ k r =>
  match r with
  | Ok a => k a
  | Throw e => Throw e
  end.

(** ** JSON values, [JSON.parse] and [Object.keys] *)

Module Json.

Local Unset Elimination Schemes.

(** A number keeps the text of its literal: nothing that is proved below
    depends on its floating-point value.  An object keeps its properties in
    creation order. *)
Inductive json : Type :=
| JNull
| JBool (b : bool)
| JNum (literal : string)
| JStr (s : string)
| JArr (items : list json)
| JObj (props : list (string * json)).

Local Set Elimination Schemes.

(** *** Lexer: one pass over the bytes, one state per lexical context *)

Inductive token : Type :=
| TLBrace | TRBrace | TLBracket | TRBracket | TColon | TComma
| TTrue | TFalse | TNullLit
| TString (s : string)
| TNumber (literal : string).

Definition hex_value (c : ascii) : option N :=
  let n := code c in
  if ((48 <=? n) && (n <=? 57))%N then Some (n - 48)%N
  else if ((65 <=? n) && (n <=? 70))%N then Some (n - 55)%N
  else if ((97 <=? n) && (n <=? 102))%N then Some (n - 87)%N
  else None.

(** UTF-8 bytes of a code point (surrogates included, each on three
    bytes, when they stand alone). *)
Definition utf8 (cp : N) : list ascii :=
  let b (n : N) := ascii_of_N n in
  if (cp <? 128)%N then [b cp]
  else if (cp <? 2048)%N then
    [b (192 + cp / 64); b (128 + cp mod 64)]%N
  else if (cp <? 65536)%N then
    [b (224 + cp / 4096); b (128 + (cp / 64) mod 64); b (128 + cp mod 64)]%N
  else
    [b (240 + cp / 262144); b (128 + (cp / 4096) mod 64);
     b (128 + (cp / 64) mod 64); b (128 + cp mod 64)]%N.

Definition is_high_surrogate (u : N) : bool := ((55296 <=? u) && (u <=? 56319))%N.
Definition is_low_surrogate (u : N) : bool := ((56320 <=? u) && (u <=? 57343))%N.

(** The bytes read so far in a string literal, last byte first, and a
    high surrogate written as an escape that still waits for its low half. *)
Record strbuf : Type := { sb_rev : list ascii; sb_high : option N }.

Definition sb_flush (b : strbuf) : list ascii :=
  match sb_high b with
  | Some h => rev (utf8 h) ++ sb_rev b
  | None => sb_rev b
  end.

Definition sb_push (b : strbuf) (c : ascii) : strbuf :=
  {| sb_rev := c :: sb_flush b; sb_high := None |}.

(** A [\uXXXX] escape with value [u]. *)
Definition sb_push_unit (b : strbuf) (u : N) : strbuf :=
  match sb_high b with
  | Some h =>
      if is_low_surrogate u then
        {| sb_rev := rev (utf8 (65536 + (h - 55296) * 1024 + (u - 56320))%N) ++ sb_rev b;
           sb_high := None |}
      else if is_high_surrogate u then
        {| sb_rev := sb_flush b; sb_high := Some u |}
      else {| sb_rev := rev (utf8 u) ++ sb_flush b; sb_high := None |}
  | None =>
      if is_high_surrogate u then {| sb_rev := sb_rev b; sb_high := Some u |}
      else {| sb_rev := rev (utf8 u) ++ sb_rev b; sb_high := None |}
  end.

Definition sb_string (b : strbuf) : string := str (rev (sb_flush b)).

Inductive lex_mode : Type :=
| LDefault
| LString (b : strbuf)
| LEscape (b : strbuf)
| LUnicode (b : strbuf) (digits : nat) (value : N)
| LNumber (rev_literal : list ascii).

(** The JSON number grammar: an optional minus sign; an integer part that
    is either a single 0 or a run of digits not starting with 0; an
    optional fraction (a dot and at least one digit); an optional exponent
    (e or E, an optional sign, at least one digit). *)
Definition valid_exponent (l : list ascii) : bool :=
  match l with
  | [] => true
  | e :: r =>
      if ((code e =? 101) || (code e =? 69))%N then
        let r' := match r with
                  | s :: t => if ((code s =? 43) || (code s =? 45))%N then t else r
                  | [] => r
                  end in
        match span_digits r' with
        | (_ :: _, []) => true
        | _ => false
        end
      else false
  end.

Definition valid_fraction (l : list ascii) : bool :=
  match l with
  | d :: r =>
      if (code d =? 46)%N then
        match span_digits r with
        | (_ :: _, rest) => valid_exponent rest
        | _ => false
        end
      else valid_exponent l
  | [] => true
  end.

Definition valid_number (l : list ascii) : bool :=
  let l' := match l with
            | m :: r => if (code m =? 45)%N then r else l
            | [] => l
            end in
  match span_digits l' with
  | ([z], rest) => valid_fraction rest
  | (d :: _ :: _, rest) => negb (code d =? 48)%N && valid_fraction rest
  | _ => false
  end.

Definition is_json_ws (c : ascii) : bool :=
  let n := code c in ((n =? 32) || (n =? 9) || (n =? 10) || (n =? 13))%N.

Definition punct (c : ascii) : option token :=
  let n := code c in
  if (n =? 123)%N then Some TLBrace
  else if (n =? 125)%N then Some TRBrace
  else if (n =? 91)%N then Some TLBracket
  else if (n =? 93)%N then Some TRBracket
  else if (n =? 58)%N then Some TColon
  else if (n =? 44)%N then Some TComma
  else None.

Definition is_number_char (c : ascii) : bool :=
  let n := code c in
  (is_digit c || (n =? 45) || (n =? 43) || (n =? 46) || (n =? 101) || (n =? 69))%N.

Definition number_token (rev_literal : list ascii) : option token :=
  let l := rev rev_literal in
  if valid_number l then Some (TNumber (str l)) else None.

Definition simple_escape (c : ascii) : option ascii :=
  let n := code c in
  if (n =? 34)%N then Some dquote
  else if (n =? 92)%N then Some (ascii_of_N 92)
  else if (n =? 47)%N then Some (ascii_of_N 47)
  else if (n =? 98)%N then Some (ascii_of_N 8)
  else if (n =? 102)%N then Some (ascii_of_N 12)
  else if (n =? 110)%N then Some (ascii_of_N 10)
  else if (n =? 114)%N then Some (ascii_of_N 13)
  else if (n =? 116)%N then Some (ascii_of_N 9)
  else None.

Definition cons_tok (t : token) (r : option (list token)) : option (list token) :=
  match r with Some ts => Some (t :: ts) | None => None end.

(** [None] is a lexical error. *)
Fixpoint lex (m : lex_mode) (l : list ascii) : option (list token) :=
  match l with
  | [] =>
      match m with
      | LDefault => Some []
      | LNumber acc =>
          match number_token acc with Some t => Some [t] | None => None end
      | _ => None
      end
  | c :: r =>
      match m with
      | LDefault =>
          if is_json_ws c then lex LDefault r
          else match punct c with
               | Some t => cons_tok t (lex LDefault r)
               | None =>
                   if (code c =? 34)%N
                   then lex (LString {| sb_rev := []; sb_high := None |}) r
                   else if (is_digit c || (code c =? 45)%N)
                   then lex (LNumber [c]) r
                   else
                     match l with
                     | "t"%char :: "r"%char :: "u"%char :: "e"%char :: r' =>
                         cons_tok TTrue (lex LDefault r')
                     | "f"%char :: "a"%char :: "l"%char :: "s"%char :: "e"%char :: r' =>
                         cons_tok TFalse (lex LDefault r')
                     | "n"%char :: "u"%char :: "l"%char :: "l"%char :: r' =>
                         cons_tok TNullLit (lex LDefault r')
                     | _ => None
                     end
               end
      | LString b =>
          if (code c =? 34)%N then cons_tok (TString (sb_string b)) (lex LDefault r)
          else if (code c =? 92)%N then lex (LEscape b) r
          else if (code c <? 32)%N then None
          else lex (LString (sb_push b c)) r
      | LEscape b =>
          if (code c =? 117)%N then lex (LUnicode b 0 0%N) r
          else match simple_escape c with
               | Some x => lex (LString (sb_push b x)) r
               | None => None
               end
      | LUnicode b n v =>
          match hex_value c with
          | Some h =>
              let v' := (v * 16 + h)%N in
              if (n =? 3)%nat then lex (LString (sb_push_unit b v')) r
              else lex (LUnicode b (S n) v') r
          | None => None
          end
      | LNumber acc =>
          if is_number_char c then lex (LNumber (c :: acc)) r
          else
            match number_token acc with
            | None => None
            | Some t =>
                if is_json_ws c then cons_tok t (lex LDefault r)
                else match punct c with
                     | Some p => cons_tok t (cons_tok p (lex LDefault r))
                     | None => None
                     end
            end
      end
  end.

(** *** Objects with JavaScript property order *)

(** [o[k] = v]: an existing property keeps its place, a new one goes last. *)
Fixpoint obj_set {A : Type} (k : string) (v : A) (o : list (string * A))
  : list (string * A) :=
  match o with
  | [] => [(k, v)]
  | (k', v') :: r =>
      if String.eqb k k' then (k, v) :: r else (k', v') :: obj_set k v r
  end.

(** Own property lookup. *)
Fixpoint obj_get {A : Type} (k : string) (o : list (string * A)) : option A :=
  match o with
  | [] => None
  | (k', v) :: r => if String.eqb k k' then Some v else obj_get k r
  end.

Definition digits_value (l : list ascii) : N :=
  fold_left (fun acc c => (acc * 10 + (code c - 48))%N) l 0%N.

(** An array index: the canonical decimal text of an integer in
    [0, 2^32 - 2]. *)
Definition array_index (k : string) : option N :=
  let l := chars k in
  match l with
  | [] => None
  | d :: r =>
      if forallb is_digit l
         && (negb (code d =? 48)%N || match r with [] => true | _ => false end)
         && (length l <=? 10)%nat
         && (digits_value l <=? 4294967294)%N
      then Some (digits_value l)
      else None
  end.

(** Insertion into a list of indices sorted in ascending order. *)
Fixpoint insert_index (n : N) (l : list N) : list N :=
  match l with
  | [] => [n]
  | m :: r => if (n <=? m)%N then n :: l else m :: insert_index n r
  end.

Definition sort_indices (l : list N) : list N :=
  fold_right insert_index [] l.

(** Own enumerable string keys in [OrdinaryOwnPropertyKeys] order: array
    indices in ascending numeric order, then the other keys in creation
    order. *)
Definition own_keys {A : Type} (o : list (string * A)) : list string :=
  let ks := map fst o in
  map of_N (sort_indices (omap array_index ks))
  ++ filter (fun k => array_index k = None) ks.

(** Number of UTF-16 code units of a string given by its UTF-8 bytes. *)
Definition utf16_length (s : string) : nat :=
  fold_left
    (fun acc c =>
       let n := code c in
       if ((128 <=? n) && (n <? 192))%N then acc
       else if (240 <=? n)%N then S (S acc)
       else S acc)
    (chars s) 0%nat.

Definition index_keys (n : nat) : list string :=
  map (fun i => of_N (N.of_nat i)) (seq 0 n).

(** [Object.keys(v)] for a value that is neither [null] nor [undefined]. *)
Definition Object_keys (v : json) : list string :=
  match v with
  | JObj o => own_keys o
  | JArr items => index_keys (length items)
  | JStr s => index_keys (utf16_length s)
  | JNull | JBool _ | JNum _ => []
  end.

(** *** Parser: a stack machine over the tokens *)

(** An open container: an array with the items read so far, or an object
    with its properties so far and the key that waits for its value. *)
Inductive frame : Type :=
| FArr (items : list json)
| FObj (props : list (string * json)) (key : option string).

Inductive expect : Type :=
| EValue          (* a value *)
| EValueOrClose   (* right after [[]: a value or []] *)
| EKeyOrClose     (* right after [{]: a key or [}] *)
| EKey            (* after a comma in an object *)
| EColon
| EAfter          (* after a value inside a container *)
| EDone (v : json).

(** Hand a finished value to the enclosing container. *)
Definition deliver (v : json) (stack : list frame) : option (expect * list frame) :=
  match stack with
  | [] => Some (EDone v, [])
  | FArr items :: st => Some (EAfter, FArr (items ++ [v]) :: st)
  | FObj props (Some k) :: st => Some (EAfter, FObj (obj_set k v props) None :: st)
  | FObj _ None :: _ => None
  end.

Definition scalar (t : token) : option json :=
  match t with
  | TTrue => Some (JBool true)
  | TFalse => Some (JBool false)
  | TNullLit => Some JNull
  | TString s => Some (JStr s)
  | TNumber n => Some (JNum n)
  | _ => None
  end.

Definition step_value (t : token) (stack : list frame) : option (expect * list frame) :=
  match t with
  | TLBrace => Some (EKeyOrClose, FObj [] None :: stack)
  | TLBracket => Some (EValueOrClose, FArr [] :: stack)
  | _ => match scalar t with
         | Some v => deliver v stack
         | None => None
         end
  end.

Definition step_key (t : token) (stack : list frame) : option (expect * list frame) :=
  match t, stack with
  | TString k, FObj props None :: st => Some (EColon, FObj props (Some k) :: st)
  | _, _ => None
  end.

Definition step (e : expect) (t : token) (stack : list frame)
  : option (expect * list frame) :=
  match e with
  | EValue => step_value t stack
  | EValueOrClose =>
      match t, stack with
      | TRBracket, FArr items :: st => deliver (JArr items) st
      | _, _ => step_value t stack
      end
  | EKeyOrClose =>
      match t, stack with
      | TRBrace, FObj props None :: st => deliver (JObj props) st
      | _, _ => step_key t stack
      end
  | EKey => step_key t stack
  | EColon => match t with TColon => Some (EValue, stack) | _ => None end
  | EAfter =>
      match t, stack with
      | TComma, FArr _ :: _ => Some (EValue, stack)
      | TComma, FObj _ None :: _ => Some (EKey, stack)
      | TRBracket, FArr items :: st => deliver (JArr items) st
      | TRBrace, FObj props None :: st => deliver (JObj props) st
      | _, _ => None
      end
  | EDone _ => None
  end.

Fixpoint run (e : expect) (stack : list frame) (ts : list token) : option json :=
  match ts with
  | [] => match e with EDone v => Some v | _ => None end
  | t :: r =>
      match step e t stack with
      | Some (e', stack') => run e' stack' r
      | None => None
      end
  end.

(** [JSON.parse(text)] *)
Definition JSON_parse (text : string) : Result json :=
  match lex LDefault (chars text) with
  | Some ts =>
      match run EValue [] ts with
      | Some v => Ok v
      | None => Throw SyntaxError
      end
  | None => Throw SyntaxError
  end.

(** *** Values as the program reads them *)

(** The value of a number literal as [mantissa * 10 ^ exponent]: the digits
    of the integer and fraction parts, and the written exponent less the
    number of fraction digits.  The sign does not matter for what follows. *)
Definition number_parts (literal : string) : N * Z :=
  let l := chars literal in
  let l := match l with
           | c :: r => if (code c =? 45)%N then r else l
           | [] => l
           end in
  let '(int, rest) := span_digits l in
  let '(frac, rest) :=
    match rest with
    | d :: r => if (code d =? 46)%N then span_digits r else ([], rest)
    | [] => ([], rest)
    end in
  let written : Z :=
    match rest with
    | e :: r =>
        if ((code e =? 101) || (code e =? 69))%N then
          match r with
          | sign :: r' =>
              if (code sign =? 45)%N then (- Z.of_N (digits_value (fst (span_digits r'))))%Z
              else if (code sign =? 43)%N then Z.of_N (digits_value (fst (span_digits r')))
              else Z.of_N (digits_value (fst (span_digits r)))
          | [] => 0%Z
          end
        else 0%Z
    | [] => 0%Z
    end in
  (digits_value (int ++ frac), (written - Z.of_nat (length frac))%Z).

(** Is the number that a literal denotes zero?  The literal is read as the
    nearest double, ties to even: it is zero when the mantissa is zero, and
    also when the value is at most [2 ^ -1075], half of the smallest
    positive double. *)
Definition number_is_zero (literal : string) : bool :=
  let '(mantissa, exponent) := number_parts literal in
  (mantissa =? 0)%N
  || ((exponent <? 0)%Z
      && (Z.of_N mantissa * 2 ^ 1075 <=? 10 ^ (- exponent))%Z).

(** [!!v] for a JSON value. *)
Definition truthy (v : json) : bool :=
  match v with
  | JNull => false
  | JBool b => b
  | JNum n => negb (number_is_zero n)
  | JStr s => negb (String.eqb s EmptyString)
  | JArr _ | JObj _ => true
  end.

(** [v.k] for one of the property names this program reads ([engines],
    [node], [dependencies], [devDependencies], [scripts]): none of them
    exists on the prototype of an array, a string, a number or a boolean,
    so only an object can have it.  [None] is [undefined]; reading a
    property of [null] throws. *)
Definition get_prop (v : json) (k : string) : Result (option json) :=
  match v with
  | JNull => Throw TypeError
  | JObj o => Ok (obj_get k o)
  | _ => Ok None
  end.

(** [v?.k] on a value that may be [undefined]. *)
Definition get_prop_opt (v : option json) (k : string) : option json :=
  match v with
  | Some (JObj o) => obj_get k o
  | _ => None
  end.

(** [String(v)] as a template literal computes it.  [Number_toString]
    gives the text that JavaScript prints for the number that a literal
    denotes. *)
Fixpoint to_display (Number_toString : string -> string) (v : json) : string :=
  match v with
  | JNull => "null"
  | JBool b => if b then "true" else "false"
  | JNum n => Number_toString n
  | JStr s => s
  | JArr items =>
      join ","
        (map (fun x => match x with
                       | JNull => EmptyString
                       | _ => to_display Number_toString x
                       end)
             items)
  | JObj _ => "[object Object]"
  end.

(** [v || d] *)
Definition or_else (v : option json) (d : json) : json :=
  match v with
  | Some x => if truthy x then x else d
  | None => d
  end.

End Json.

Import Json.

(** ** The regular expressions of the version extractors *)

Module Regex.

Definition is_prefix_of (p : string) (l : list ascii) : option (list ascii) :=
  let fix go (p l : list ascii) : option (list ascii) :=
    match p with
    | [] => Some l
    | a :: p' =>
        match l with
        | b :: l' => if Ascii.eqb a b then go p' l' else None
        | [] => None
        end
    end in
  go (chars p) l.

(** A match of [go (\d+\.\d+)] anchored at the head of [l]; the result
    is capture group 1.  [\d+] is greedy, and giving digits back can
    never help, since what follows it must be a dot. *)
Definition go_at (l : list ascii) : option string :=
  match is_prefix_of "go " l with
  | Some r =>
      match span_digits r with
      | ((_ :: _) as major, dot :: r') =>
          if (code dot =? 46)%N then
            match span_digits r' with
            | ((_ :: _) as minor, _) => Some (str (major ++ dot :: minor))
            | _ => None
            end
          else None
      | _ => None
      end
  | None => None
  end.

(** [text.match(/go (\d+\.\d+)/)?.[1]]: the leftmost match. *)
Fixpoint go_version (l : list ascii) : option string :=
  match go_at l with
  | Some v => Some v
  | None => match l with
            | _ :: r => go_version r
            | [] => None
            end
  end.

Definition is_quote (c : ascii) : bool := ((code c =? 39) || (code c =? 34))%N.

(** Does a line terminator (which [.] refuses) start here?  U+2028 and
    U+2029 are three bytes long. *)
Definition line_terminator_at (l : list ascii) : bool :=
  match l with
  | a :: r =>
      ((code a =? 10) || (code a =? 13))%N
      || match r with
         | b :: c :: _ =>
             ((code a =? 226) && (code b =? 128)
              && ((code c =? 168) || (code c =? 169)))%N
         | _ => false
         end
  | [] => false
  end.

(** The lazy [.+?] once its first character is taken: stop at the first
    quote, fail on a line terminator or at the end of the text. *)
Fixpoint lazy_until_quote (acc l : list ascii) : option string :=
  match l with
  | [] => None
  | c :: r =>
      if is_quote c then Some (str (rev acc))
      else if line_terminator_at l then None
      else lazy_until_quote (c :: acc) r
  end.

(** A match of [ruby ['"](.+?)['"]] anchored at the head of [l]. *)
Definition ruby_at (l : list ascii) : option string :=
  match is_prefix_of "ruby " l with
  | Some (q :: ((c :: r) as body)) =>
      if is_quote q && negb (line_terminator_at body)
      then lazy_until_quote [c] r
      else None
  | _ => None
  end.

(** [text.match(/ruby ['"](.+?)['"]/)?.[1]] *)
Fixpoint ruby_version (l : list ascii) : option string :=
  match ruby_at l with
  | Some v => Some v
  | None => match l with
            | _ :: r => ruby_version r
            | [] => None
            end
  end.

(** Longest run of characters that satisfy [p] at the front, and what
    follows it. *)
Fixpoint span (p : ascii -> bool) (l : list ascii) : list ascii * list ascii :=
  match l with
  | c :: r =>
      if p c then let '(run, rest) := span p r in (c :: run, rest) else ([], l)
  | [] => ([], [])
  end.

Definition is_slash (c : ascii) : bool := (code c =? 47)%N.

Definition not_slash (c : ascii) : bool := negb (is_slash c).

(** The class that excludes the slash and the question mark. *)
Definition repo_char (c : ascii) : bool := negb (is_slash c || (code c =? 63)%N).

(** A match of the repository reference pattern of [parseGithubUrl]
    anchored at the head of [l]: the text [github.com/], a non-empty run
    without slash (group 1), a slash, a non-empty run without slash or
    question mark (group 2).  Both runs are greedy; giving characters of
    the first run back can never help, since what follows it must be a
    slash, and the second run is followed by nothing. *)
Definition github_at (l : list ascii) : option (string * string) :=
  match is_prefix_of "github.com/" l with
  | Some r =>
      match span not_slash r with
      | ((_ :: _) as owner, _ :: r') =>
          match span repo_char r' with
          | ((_ :: _) as repo, _) => Some (str owner, str repo)
          | _ => None
          end
      | _ => None
      end
  | None => None
  end.

(** The leftmost match of the pattern in [l]. *)
Fixpoint github_match (l : list ascii) : option (string * string) :=
  match github_at l with
  | Some groups => Some groups
  | None => match l with
            | _ :: r => github_match r
            | [] => None
            end
  end.

End Regex.

(** ** Data model *)

Module FileEntry.
Record t : Type := mk { path : string; name : string; size : N }.
End FileEntry.

Module Tech.
(** An entry of [techStack].  [version] is a JavaScript value: the Node.js
    builder copies whatever [engines.node] holds.  The optional fields
    are the ones only some builders set. *)
Record t : Type := mk {
  name : string;
  icon : string;
  version : json;
  dependencies : option (list string);
  devDependencies : option (list string);
  scripts : option json;
  buildTool : option string
}.

Definition plain (name icon version : string) : t :=
  mk name icon (JStr version) None None None None.
End Tech.

Module Service.
Record t : Type := mk { name : string; type : string; port : N }.
End Service.

Module RepoData.
Record t : Type := mk {
  owner : string;
  name : string;
  description : option string;
  files : list string;
  techStack : list Tech.t;
  services : list Service.t;
  ports : list N;
  hasDocker : bool;
  hasTests : bool;
  estimatedSetupTime : string
}.
End RepoData.

(** ** RepositoryAnalyzer *)

Module RepositoryAnalyzer.

Definition keyFiles : list string :=
  ["package.json"; "requirements.txt"; "Gemfile"; "go.mod"; "pom.xml";
   "build.gradle"; "Cargo.toml"; "composer.json"; "pubspec.yaml"].

Definition has_path (files : list FileEntry.t) (p : string) : bool :=
  existsb (fun f => String.eqb (FileEntry.path f) p) files.

(** One turn of the loop that fills [configFiles]: a key file of the
    listing is fetched, and a failed fetch is only logged. *)
Definition fetchStep (fetch : string -> option string) (files : list FileEntry.t)
    (configFiles : gmap string string) (fileName : string) : gmap string string :=
  match List.find (fun f => String.eqb (FileEntry.path f) fileName) files with
  | Some _ =>
      match fetch fileName with
      | Some content => <[fileName := content]> configFiles
      | None => configFiles
      end
  | None => configFiles
  end.

Definition fetchConfigFiles (fetch : string -> option string)
    (files : list FileEntry.t) : gmap string string :=
  fold_left (fetchStep fetch files) keyFiles ∅.

(** [configFiles[k]] used as a condition: the content, when the key is
    there and the content is not the empty string. *)
Definition config (configFiles : gmap string string) (k : string) : option string :=
  match configFiles !! k with
  | Some content => if String.eqb content EmptyString then None else Some content
  | None => None
  end.

Definition present (configFiles : gmap string string) (k : string) : bool :=
  bool_decide (is_Some (config configFiles k)).

(** [Object.keys(v || {})] *)
Definition keys_or_empty (v : option json) : list string :=
  Object_keys (or_else v (JObj [])).

(** Node.js detection: the entry built from a parsed package descriptor. *)
Definition nodeEntry (text : string) : Result Tech.t :=
  packageJson ← JSON_parse text;
  engines ← get_prop packageJson "engines";
  deps ← get_prop packageJson "dependencies";
  devDeps ← get_prop packageJson "devDependencies";
  scripts ← get_prop packageJson "scripts";
  mret {|
    Tech.name := "Node.js";
    Tech.icon := "🟢";
    Tech.version := or_else (get_prop_opt engines "node") (JStr ">=16.0.0");
    Tech.dependencies := Some (take 8 (keys_or_empty deps));
    Tech.devDependencies := Some (take 5 (keys_or_empty devDeps));
    Tech.scripts := Some (or_else scripts (JObj []));
    Tech.buildTool := None
  |}.

(** Python detection: the lines of the requirements file that are kept,
    and the name taken from each. *)
Definition keepRequirement (line : string) : bool :=
  negb (String.eqb (trim line) EmptyString) && negb (startsWith line "#").

Definition requirementLines (text : string) : list string :=
  take 10 (List.filter keepRequirement (split_newline text)).

Definition requirementName (req : string) : string :=
  trim (split_head ">=" (split_head "==" req)).

Definition pythonEntry (text : string) : Tech.t :=
  {| Tech.name := "Python";
     Tech.icon := "🐍";
     Tech.version := JStr "3.9+";
     Tech.dependencies := Some (map requirementName (requirementLines text));
     Tech.devDependencies := None;
     Tech.scripts := None;
     Tech.buildTool := None |}.

Definition goEntry (text : string) : Tech.t :=
  Tech.plain "Go" "🐹" (default "latest" (Regex.go_version (chars text))).

Definition javaEntry (configFiles : gmap string string) : Tech.t :=
  {| Tech.name := "Java";
     Tech.icon := "☕";
     Tech.version := JStr "11+";
     Tech.dependencies := None;
     Tech.devDependencies := None;
     Tech.scripts := None;
     Tech.buildTool :=
       Some (if present configFiles "pom.xml" then "Maven" else "Gradle") |}.

Definition rubyEntry (text : string) : Tech.t :=
  Tech.plain "Ruby" "💎" (default "latest" (Regex.ruby_version (chars text))).

(** Each detection step pushes at most one entry onto [techStack]. *)
Definition push_if {A : Type} (c : bool) (x : A) (l : list A) : list A :=
  if c then l ++ [x] else l.

Definition push_for {A B : Type} (o : option B) (f : B -> A) (l : list A) : list A :=
  match o with
  | Some b => l ++ [f b]
  | None => l
  end.

Definition detectTechStack (fetch : string -> option string)
    (files : list FileEntry.t) : Result (list Tech.t) :=
  let techStack : list Tech.t := [] in
  let configFiles := fetchConfigFiles fetch files in
  (* Node.js detection *)
  techStack ←
    match config configFiles "package.json" with
    | Some text => entry ← nodeEntry text; mret (techStack ++ [entry])
    | None => mret techStack
    end;
  (* Python detection *)
  let techStack := push_for (config configFiles "requirements.txt") pythonEntry techStack in
  (* Go detection *)
  let techStack := push_for (config configFiles "go.mod") goEntry techStack in
  (* Java detection *)
  let techStack :=
    push_if (present configFiles "pom.xml" || present configFiles "build.gradle")
            (javaEntry configFiles) techStack in
  (* Ruby detection *)
  let techStack := push_for (config configFiles "Gemfile") rubyEntry techStack in
  (* Rust detection *)
  let techStack :=
    push_if (present configFiles "Cargo.toml") (Tech.plain "Rust" "🦀" "latest") techStack in
  (* PHP detection *)
  let techStack :=
    push_if (present configFiles "composer.json"
             || existsb (fun f => endsWith (FileEntry.path f) ".php") files)
            (Tech.plain "PHP" "🐘" "8.1+") techStack in
  (* Dart/Flutter detection *)
  let techStack :=
    push_if (present configFiles "pubspec.yaml")
            (Tech.plain "Dart/Flutter" "🎯" "latest") techStack in
  (* Docker detection *)
  let techStack :=
    push_if (has_path files "Dockerfile") (Tech.plain "Docker" "🐳" "latest") techStack in
  mret techStack.

Definition hasDatabase (files : list FileEntry.t) : bool :=
  existsb (fun f => includes (FileEntry.path f) "database"
                    || includes (FileEntry.path f) "db"
                    || includes (FileEntry.path f) "migration") files.

Definition hasRedis (files : list FileEntry.t) : bool :=
  existsb (fun f => includes (FileEntry.path f) "redis") files.

Definition hasWeb (files : list FileEntry.t) : bool :=
  existsb (fun f => includes (FileEntry.path f) "server"
                    || includes (FileEntry.path f) "app"
                    || String.eqb (FileEntry.name f) "index.js"
                    || String.eqb (FileEntry.name f) "main.py"
                    || String.eqb (FileEntry.name f) "app.py") files.

Definition detectServices (files : list FileEntry.t) : list Service.t :=
  let services : list Service.t := [] in
  let services :=
    push_if (hasDatabase files)
            {| Service.name := "Database"; Service.type := "postgres";
               Service.port := 5432 |}
            services in
  let services :=
    push_if (hasRedis files)
            {| Service.name := "Redis"; Service.type := "redis"; Service.port := 6379 |}
            services in
  let services :=
    push_if (hasWeb files)
            {| Service.name := "Web Server"; Service.type := "web"; Service.port := 3000 |}
            services in
  services.

Definition extractPorts (services : list Service.t) : list N :=
  map Service.port services.

(** [minutes]: 1, plus 0.5 per technology, plus 1 per service.  Halves are
    exact in binary floating point, so the rationals compute the same
    comparisons. *)
Definition setupMinutes (techStack : list Tech.t) (services : list Service.t) : Q :=
  1 + inject_Z (Z.of_nat (length techStack)) * (1 # 2)
    + inject_Z (Z.of_nat (length services)) * 1.

Definition Qltb (x y : Q) : bool := negb (Qle_bool y x).

Definition estimateSetupTime (techStack : list Tech.t) (services : list Service.t)
  : string :=
  let minutes := setupMinutes techStack services in
  if Qltb minutes 2 then "1-2 minutes"
  else if Qltb minutes 5 then "2-5 minutes"
  else if Qltb minutes 10 then "5-10 minutes"
  else "10+ minutes".

(** [analyzeRepository] once the repository metadata and the file listing
    have been fetched: any exception of the analysis is rethrown as
    [Failed to analyze repository]. *)
Definition analyzeRepository (owner repo : string) (description : option string)
    (fetch : string -> option string) (files : list FileEntry.t)
  : Result RepoData.t :=
  match detectTechStack fetch files with
  | Throw e => Throw (AnalysisFailed e)
  | Ok techStack =>
      let services := detectServices files in
      Ok {| RepoData.owner := owner;
            RepoData.name := repo;
            RepoData.description := description;
            RepoData.files := map FileEntry.path files;
            RepoData.techStack := techStack;
            RepoData.services := services;
            RepoData.ports := extractPorts services;
            RepoData.hasDocker := has_path files "Dockerfile";
            RepoData.hasTests :=
              existsb (fun f => includes (FileEntry.path f) "test") files;
            RepoData.estimatedSetupTime := estimateSetupTime techStack services |}
  end.

(** [repo.replace(/\.git$/, '')]: a final [.git] is cut off, once. *)
Definition stripGitSuffix (repo : string) : string :=
  if endsWith repo ".git" then str (rev (drop 4 (rev (chars repo)))) else repo.

Inductive UrlResult : Type :=
| Parsed (owner repo : string)
| InvalidGitHubURL.           (* [throw new Error('Invalid GitHub URL')] *)

Definition parseGithubUrl (url : string) : UrlResult :=
  match Regex.github_match (chars url) with
  | Some (owner, repo) => Parsed owner (stripGitSuffix repo)
  | None => InvalidGitHubURL
  end.

Local Unset Elimination Schemes.

(** An item of a directory listing of the hosting API, together with the
    answer to the request for its own contents, which only matters for a
    directory: [None] is a rejected request. *)
Inductive Item : Type :=
| Entry (type path name : string) (size : N) (contents : option (list Item)).

Local Set Elimination Schemes.

Definition item_type (item : Item) : string := let 'Entry t _ _ _ _ := item in t.
Definition item_path (item : Item) : string := let 'Entry _ p _ _ _ := item in p.
Definition item_name (item : Item) : string := let 'Entry _ _ n _ _ := item in n.
Definition item_size (item : Item) : N := let 'Entry _ _ _ s _ := item in s.
Definition item_contents (item : Item) : option (list Item) :=
  let 'Entry _ _ _ _ c := item in c.

(** [path.split('/').length]: one more than the number of slashes. *)
Definition segments (path : string) : nat :=
  S (length (List.filter Regex.is_slash (chars path))).

Definition is_file (item : Item) : bool := String.eqb (item_type item) "file".

(** A directory that the traversal may enter. *)
Definition is_open_dir (item : Item) : bool :=
  String.eqb (item_type item) "dir" && negb (String.eqb (item_name item) ".git").

(** The loop of [fetchFileStructure] over the items of one response;
    [descend] is the recursive call and [path] the path of the directory
    that is being listed. *)
Fixpoint collectFiles (descend : Item -> option (list FileEntry.t)) (path : string)
    (items : list Item) (files : list FileEntry.t) : option (list FileEntry.t) :=
  match items with
  | [] => Some files
  | item :: rest =>
      if is_file item then
        collectFiles descend path rest
          (files ++ [FileEntry.mk (item_path item) (item_name item) (item_size item)])
      else if is_open_dir item then
        (* Recursively fetch subdirectories (limit depth for performance) *)
        if (segments path <? 3)%nat then
          match descend item with
          | Some subFiles => collectFiles descend path rest (files ++ subFiles)
          | None => None
          end
        else collectFiles descend path rest files
      else collectFiles descend path rest files
  end.

(** [fetchFileStructure(owner, repo, path)], where [dir] is the directory
    whose path is [path] (the root has the empty path).  [None] is a
    rejected request, which makes the whole traversal fail. *)
Fixpoint fetchFileStructure (dir : Item) : option (list FileEntry.t) :=
  match item_contents dir with
  | None => None
  | Some response => collectFiles fetchFileStructure (item_path dir) response []
  end.

End RepositoryAnalyzer.

(** ** LabspaceGenerator *)

(** The object handed to the YAML printer by [generateDockerCompose]. *)
Module Compose.

Record AppService : Type := mkApp {
  build : string;
  app_ports : list string;
  app_volumes : list string;
  app_environment : list string;
  depends_on : list string
}.

Record DbService : Type := mkDb {
  db_image : string;
  db_environment : list string;
  db_ports : list string;
  db_volumes : list string
}.

Record RedisService : Type := mkRedis {
  redis_image : string;
  redis_ports : list string
}.

(** [compose.services]: its keys can only appear in the order
    [app], [db], [redis]. *)
Record Services : Type := mkServices {
  app : option AppService;
  db : option DbService;
  redis : option RedisService
}.

(** [volumes] lists the keys of the root [volumes] object, each bound to an
    empty object; [None] when the root has no such key. *)
Record t : Type := mk {
  version : string;
  services : Services;
  volumes : option (list string)
}.

End Compose.

Module LabspaceGenerator.

Definition has_service_named (services : list Service.t) (n : string) : bool :=
  existsb (fun s => String.eqb (Service.name s) n) services.

(** [services.find(s => s.type === 'web')?.port || 3000] *)
Definition webPort (services : list Service.t) : N :=
  match List.find (fun s => String.eqb (Service.type s) "web") services with
  | Some s => if (Service.port s =? 0)%N then 3000%N else Service.port s
  | None => 3000%N
  end.

Definition portMapping (host container : N) : string :=
  of_N host +:+ ":" +:+ of_N container.

Definition push_dependency (d : string) (a : Compose.AppService) : Compose.AppService :=
  {| Compose.build := Compose.build a;
     Compose.app_ports := Compose.app_ports a;
     Compose.app_volumes := Compose.app_volumes a;
     Compose.app_environment := Compose.app_environment a;
     Compose.depends_on := Compose.depends_on a ++ [d] |}.

(** The object [compose] of [generateDockerCompose] as it stands when it
    is handed to [dump]. *)
Definition composeObject (repoData : RepoData.t) : Compose.t :=
  let techStack := RepoData.techStack repoData in
  let services := RepoData.services repoData in
  (* Add main application service *)
  let mainTech := head techStack in
  let app :=
    match mainTech with
    | Some _ =>
        Some {| Compose.build := ".";
                Compose.app_ports := [portMapping (webPort services) (webPort services)];
                Compose.app_volumes := [".:/workspace"];
                Compose.app_environment := ["NODE_ENV=development"];
                Compose.depends_on := [] |}
    | None => None
    end in
  (* Add database service if needed *)
  let hasDb := has_service_named services "Database" in
  let db :=
    if hasDb then
      Some {| Compose.db_image := "postgres:13";
              Compose.db_environment :=
                ["POSTGRES_DB=appdb"; "POSTGRES_USER=user"; "POSTGRES_PASSWORD=password"];
              Compose.db_ports := ["5432:5432"];
              Compose.db_volumes := ["db_data:/var/lib/postgresql/data"] |}
    else None in
  let app := if hasDb then push_dependency "db" <$> app else app in
  (* Add Redis if needed *)
  let hasRedis := has_service_named services "Redis" in
  let redis :=
    if hasRedis then
      Some {| Compose.redis_image := "redis:6-alpine";
              Compose.redis_ports := ["6379:6379"] |}
    else None in
  let app := if hasRedis then push_dependency "redis" <$> app else app in
  (* Add volumes *)
  {| Compose.version := "3.8";
     Compose.services := {| Compose.app := app; Compose.db := db; Compose.redis := redis |};
     Compose.volumes := if hasDb then Some ["db_data"] else None |}.

Definition name_is (tech : Tech.t) (n : string) : bool := String.eqb (Tech.name tech) n.

Definition getRecommendedExtensions (techStack : list Tech.t) : list string :=
  fold_left
    (fun extensions tech =>
       if name_is tech "Node.js" then
         extensions ++ ["ms-vscode.vscode-typescript-next"; "esbenp.prettier-vscode"]
       else if name_is tech "Python" then extensions ++ ["ms-python.python"]
       else if name_is tech "Go" then extensions ++ ["golang.go"]
       else if name_is tech "Docker" then extensions ++ ["ms-azuretools.vscode-docker"]
       else extensions)
    techStack ["ms-vscode.vscode-json"].

Definition getPostCreateCommand (techStack : list Tech.t) : string :=
  join " && "
    (fold_left
       (fun commands tech =>
          if name_is tech "Node.js" then commands ++ ["npm install"]
          else if name_is tech "Python" then commands ++ ["pip install -r requirements.txt"]
          else if name_is tech "Go" then commands ++ ["go mod tidy"]
          else commands)
       techStack []).

Definition devContainerObject (repoData : RepoData.t) : json :=
  let techStack := RepoData.techStack repoData in
  let services := RepoData.services repoData in
  JObj [
    ("name", JStr (RepoData.name repoData +:+ " Development Environment"));
    ("dockerComposeFile", JStr "../docker-compose.yml");
    ("service", JStr "app");
    ("workspaceFolder", JStr "/workspace");
    ("customizations",
      JObj [("vscode",
        JObj [("settings",
                JObj [("terminal.integrated.defaultProfile.linux", JStr "bash")]);
              ("extensions", JArr (map JStr (getRecommendedExtensions techStack)))])]);
    ("forwardPorts", JArr (map (fun s => JNum (of_N (Service.port s))) services));
    ("postCreateCommand", JStr (getPostCreateCommand techStack));
    ("remoteUser", JStr "root")
  ].

Definition settingsObject (repoData : RepoData.t) : json :=
  JObj
    (fold_left
       (fun settings tech =>
          if name_is tech "Node.js" then
            obj_set "javascript.preferences.quoteStyle" (JStr "single")
              (obj_set "typescript.preferences.quoteStyle" (JStr "single") settings)
          else if name_is tech "Python" then
            obj_set "python.formatting.provider" (JStr "black")
              (obj_set "python.defaultInterpreterPath" (JStr "/usr/local/bin/python")
                 settings)
          else if name_is tech "Go" then
            obj_set "go.toolsManagement.autoUpdate" (JBool true) settings
          else settings)
       (RepoData.techStack repoData)
       [("editor.tabSize", JNum "2");
        ("editor.insertSpaces", JBool true);
        ("files.autoSave", JStr "onDelay");
        ("files.autoSaveDelay", JNum "1000");
        ("terminal.integrated.cwd", JStr "${workspaceFolder}")]).

Definition extensionsObject (repoData : RepoData.t) : json :=
  let recommendations :=
    fold_left
      (fun recommendations tech =>
         if name_is tech "Node.js" then
           recommendations ++ ["ms-vscode.vscode-node-debug2"; "esbenp.prettier-vscode";
                               "ms-vscode.vscode-typescript-next"]
         else if name_is tech "Python" then
           recommendations ++ ["ms-python.python"; "ms-python.flake8"]
         else if name_is tech "Go" then recommendations ++ ["golang.go"]
         else if name_is tech "Java" then
           recommendations ++ ["redhat.java"; "vscjava.vscode-java-pack"]
         else if name_is tech "Docker" then
           recommendations ++ ["ms-azuretools.vscode-docker"]
         else recommendations)
      (RepoData.techStack repoData) [] in
  JObj [("recommendations",
         JArr (map JStr (recommendations ++
                         ["ms-vscode.vscode-json"; "redhat.vscode-yaml";
                          "ms-vscode.vscode-eslint"])))].

(** A line of the guide's service list. *)
Definition serviceLine (service : Service.t) : string :=
  "- **" +:+ Service.name service +:+ "**: http://localhost:"
  +:+ of_N (Service.port service).

(** [services.includes(text)]: an entry is an object, and no object is
    strictly equal to a string. *)
Definition includes_string (services : list Service.t) (text : string) : bool :=
  existsb (fun _ => false) services.

Definition nodeBlock : string :=
  String.concat EmptyString [
    nl; "# Install Node.js dependencies"; nl; "if [ -f "; dq; "package.json"; dq;
    " ]; then"; nl; "    echo "; dq; "📦 Installing Node.js dependencies..."; dq; nl;
    "    npm install"; nl; "    "; nl; "    # Start the application"; nl;
    "    if npm run dev > /dev/null 2>&1; then"; nl; "        echo "; dq;
    "🎯 Starting development server..."; dq; nl; "        npm run dev"; nl;
    "    elif npm start > /dev/null 2>&1; then"; nl; "        echo "; dq;
    "🎯 Starting application..."; dq; nl; "        npm start"; nl; "    else"; nl;
    "        echo "; dq; "🎯 Starting with node..."; dq; nl;
    "        node index.js || node server.js || node app.js"; nl; "    fi"; nl; "fi";
    nl
  ].

Definition pythonBlock : string :=
  String.concat EmptyString [
    nl; "# Install Python dependencies"; nl; "if [ -f "; dq; "requirements.txt"; dq;
    " ]; then"; nl; "    echo "; dq; "🐍 Installing Python dependencies..."; dq; nl;
    "    pip install -r requirements.txt"; nl; "    "; nl;
    "    # Start the application"; nl; "    echo "; dq;
    "🎯 Starting Python application..."; dq; nl;
    "    python app.py || python main.py || python server.py"; nl; "fi"; nl
  ].

Definition goBlock : string :=
  String.concat EmptyString [
    nl; "# Install Go dependencies"; nl; "if [ -f "; dq; "go.mod"; dq; " ]; then"; nl;
    "    echo "; dq; "🐹 Installing Go dependencies..."; dq; nl; "    go mod tidy"; nl;
    "    "; nl; "    # Start the application"; nl; "    echo "; dq;
    "🎯 Starting Go application..."; dq; nl; "    go run ."; nl; "fi"; nl
  ].

(** The two [echo] lines that close the startup script. *)
Definition scriptFooter : string :=
  String.concat EmptyString [
    nl; "echo "; dq; "✅ Application started successfully!"; dq; nl; "echo "; dq;
    "🌐 Access your application at: http://localhost:3000"; dq; nl
  ].

Definition generateStartupScript (repoData : RepoData.t) : string :=
  let script :=
    String.concat EmptyString [
      "#!/bin/bash"; nl; nl; "# Generated startup script for "; RepoData.name repoData;
      nl; "echo "; dq; "🚀 Starting "; RepoData.name repoData;
      " development environment..."; dq; nl; nl
    ] in
  let script :=
    fold_left
      (fun script tech =>
         if name_is tech "Node.js" then script +:+ nodeBlock
         else if name_is tech "Python" then script +:+ pythonBlock
         else if name_is tech "Go" then script +:+ goBlock
         else script)
      (RepoData.techStack repoData) script in
  script +:+ scriptFooter.

(** What [require('yaml')] gives, as far as this program reads it: the
    property [dump], which is [undefined] in a module that exports nothing
    of that name. *)
Record YamlModule : Type := { dump : option (Compose.t -> string) }.

(** The package called [yaml]: it exports [parse] and [stringify], and
    nothing called [dump] (the printer of that name is the one of
    js-yaml). *)
Definition yaml_package : YamlModule := {| dump := None |}.

(** [f(x)] for a value [f] that may be [undefined]: calling [undefined]
    throws a type error. *)
Definition call {A B : Type} (f : option (A -> B)) (x : A) : Result B :=
  match f with
  | Some g => Ok (g x)
  | None => Throw TypeError
  end.

Record Labspace : Type := mkLabspace {
  files : list string;
  downloadPath : string
}.

Section Platform.

(** What the generator takes from its platform: the module that
    [require('yaml')] loads, [JSON.stringify(_, null, 2)], the two
    renderings of the current date, the printing of a number, and
    [createZipPackage], whose promise resolves or rejects. *)
Variable yaml : YamlModule.
Variable JSON_stringify : json -> string.
Variable now_iso : string.
Variable today : string.
Variable Number_toString : string -> string.
Variable createZipPackage : list (string * string) -> string -> Result unit.

(** The object [compose] is built first; the template literal of the
    [return] statement then calls [require('yaml').dump] on it. *)
Definition generateDockerCompose (repoData : RepoData.t) : Result string :=
  let compose := composeObject repoData in
  printed ← call (dump yaml) compose;
  mret (String.concat EmptyString [
          "# Generated Labspace Docker Compose"; nl;
          "# Repository: "; RepoData.name repoData; nl;
          "# Generated: "; now_iso; nl; nl;
          printed
        ]).

Definition generateDevContainer (repoData : RepoData.t) : string :=
  JSON_stringify (devContainerObject repoData).

Definition generateVSCodeSettings (repoData : RepoData.t) : string :=
  JSON_stringify (settingsObject repoData).

Definition generateVSCodeExtensions (repoData : RepoData.t) : string :=
  JSON_stringify (extensionsObject repoData).

(** A line of the guide's tech stack list. *)
Definition techLine (tech : Tech.t) : string :=
  "- **" +:+ Tech.name tech +:+ "** "
  +:+ (if truthy (Tech.version tech)
       then "(" +:+ to_display Number_toString (Tech.version tech) +:+ ")"
       else EmptyString).

Definition generateReadme (repoData : RepoData.t) : string :=
  String.concat EmptyString [
    "# "; RepoData.name repoData; " - Development Environment"; nl; nl;
    "This labspace was automatically generated for the repository: `";
    RepoData.owner repoData; "/"; RepoData.name repoData; "`"; nl; nl;
    "## 🚀 Quick Start"; nl; nl; "### Option 1: Docker Compose"; nl; "```bash"; nl;
    "docker-compose up -d"; nl; "```"; nl; nl; "### Option 2: VS Code Dev Containers";
    nl; "1. Open this folder in VS Code"; nl; "2. Click "; dq; "Reopen in Container";
    dq; " when prompted"; nl; "3. Wait for the container to build and start"; nl; nl;
    "## 🛠 Detected Tech Stack"; nl; nl;
    join nl (map techLine (RepoData.techStack repoData)); nl; nl; "## 🔧 Services"; nl;
    nl; join nl (map serviceLine (RepoData.services repoData)); nl; nl;
    "## 📋 Available Scripts"; nl; nl;
    "Run these commands inside the development environment:"; nl; nl; "```bash"; nl;
    "# Start the application"; nl; "./scripts/start.sh"; nl; nl;
    "# Install dependencies (if needed)"; nl;
    "npm install  # or pip install -r requirements.txt, go mod tidy, etc."; nl; nl;
    "# Run tests (if available)"; nl;
    (if RepoData.hasTests repoData then "npm test" else "# No tests detected"); nl;
    "```"; nl; nl; "## 🐳 Docker Services"; nl; nl;
    "This labspace includes the following Docker services:"; nl;
    "- **Application**: Your main application service"; nl;
    (if includes_string (RepoData.services repoData) "Database"
     then "- **Database**: PostgreSQL database" else EmptyString);
    nl;
    (if includes_string (RepoData.services repoData) "Redis"
     then "- **Redis**: Redis cache/session store" else EmptyString);
    nl; nl; "## 📁 Generated Files"; nl; nl;
    "- `docker-compose.yml`: Multi-service Docker setup"; nl;
    "- `.devcontainer/`: VS Code development container configuration"; nl;
    "- `.vscode/`: VS Code settings and extensions"; nl;
    "- `scripts/start.sh`: Startup script for the application"; nl; nl;
    "## 🔧 Customization"; nl; nl; "You can customize this labspace by:"; nl;
    "1. Modifying `docker-compose.yml` for additional services"; nl;
    "2. Updating `.devcontainer/devcontainer.json` for VS Code settings"; nl;
    "3. Adding environment variables in `.env` file"; nl;
    "4. Modifying `scripts/start.sh` for custom startup commands"; nl; nl; "---"; nl;
    nl; "Generated by GitHub Labspace Generator on "; today; nl
  ].

(** [generateLabspace]: an exception of a generator or a rejection of
    [createZipPackage] rejects the promise that it returns. *)
Definition generateLabspace (repoData : RepoData.t) (outputPath : string)
  : Result Labspace :=
  let labspaceFiles : list (string * string) := [] in
  (* Generate docker-compose.yml *)
  dockerCompose ← generateDockerCompose repoData;
  let labspaceFiles := obj_set "docker-compose.yml" dockerCompose labspaceFiles in
  (* Generate devcontainer.json *)
  let labspaceFiles :=
    obj_set ".devcontainer/devcontainer.json" (generateDevContainer repoData)
      labspaceFiles in
  (* Generate VS Code settings *)
  let labspaceFiles :=
    obj_set ".vscode/settings.json" (generateVSCodeSettings repoData) labspaceFiles in
  let labspaceFiles :=
    obj_set ".vscode/extensions.json" (generateVSCodeExtensions repoData)
      labspaceFiles in
  (* Generate README *)
  let labspaceFiles := obj_set "LABSPACE.md" (generateReadme repoData) labspaceFiles in
  (* Generate startup script *)
  let labspaceFiles :=
    obj_set "scripts/start.sh" (generateStartupScript repoData) labspaceFiles in
  (* Create ZIP package *)
  _ ← createZipPackage labspaceFiles outputPath;
  mret {| files := own_keys labspaceFiles; downloadPath := outputPath |}.

End Platform.

End LabspaceGenerator.

(** ** The detector of the client ([App.jsx]) *)

Module App.

Definition includes_path (files : list string) (p : string) : bool :=
  existsb (fun f => String.eqb f p) files.

(** A string argument used as a condition. *)
Definition given (text : option string) : option string :=
  match text with
  | Some t => if String.eqb t EmptyString then None else Some t
  | None => None
  end.

Definition nodeEntry (packageJson : json) : Tech.t :=
  {| Tech.name := "Node.js";
     Tech.icon := "🟢";
     Tech.version :=
       or_else (get_prop_opt (get_prop_opt (Some packageJson) "engines") "node")
               (JStr "latest");
     Tech.dependencies :=
       Some (take 5 (RepositoryAnalyzer.keys_or_empty
                       (get_prop_opt (Some packageJson) "dependencies")));
     Tech.devDependencies := None;
     Tech.scripts := None;
     Tech.buildTool := None |}.

Definition pythonEntry (requirements : string) : Tech.t :=
  {| Tech.name := "Python";
     Tech.icon := "🐍";
     Tech.version := JStr "3.9+";
     Tech.dependencies :=
       Some (map (split_head "==") (take 5 (split_newline requirements)));
     Tech.devDependencies := None;
     Tech.scripts := None;
     Tech.buildTool := None |}.

Definition javaEntry (files : list string) : Tech.t :=
  {| Tech.name := "Java";
     Tech.icon := "☕";
     Tech.version := JStr "11+";
     Tech.dependencies := None;
     Tech.devDependencies := None;
     Tech.scripts := None;
     Tech.buildTool :=
       Some (if includes_path files "pom.xml" then "Maven" else "Gradle") |}.

(** [detectTechStack(files, packageJson, requirements, gemfile, goMod)]:
    [files] holds paths, [packageJson] a parsed descriptor, the other three
    the text of a manifest; an argument that is not given is [None]. *)
Definition detectTechStack (files : list string) (packageJson : option json)
    (requirements gemfile goMod : option string) : list Tech.t :=
  let techStack : list Tech.t := [] in
  let techStack :=
    match packageJson with
    | Some descriptor =>
        if truthy descriptor then techStack ++ [nodeEntry descriptor] else techStack
    | None => techStack
    end in
  let techStack := RepositoryAnalyzer.push_for (given requirements) pythonEntry techStack in
  let techStack :=
    RepositoryAnalyzer.push_if (includes_path files "Dockerfile")
      (Tech.plain "Docker" "🐳" "latest") techStack in
  let techStack :=
    RepositoryAnalyzer.push_if
      (includes_path files "pom.xml" || includes_path files "build.gradle")
      (javaEntry files) techStack in
  let techStack :=
    RepositoryAnalyzer.push_for (given goMod) RepositoryAnalyzer.goEntry techStack in
  let techStack :=
    RepositoryAnalyzer.push_for (given gemfile) RepositoryAnalyzer.rubyEntry techStack in
  let techStack :=
    RepositoryAnalyzer.push_if (existsb (fun f => endsWith f ".php") files)
      (Tech.plain "PHP" "🐘" "8.1+") techStack in
  let techStack :=
    RepositoryAnalyzer.push_if (includes_path files "Cargo.toml")
      (Tech.plain "Rust" "🦀" "latest") techStack in
  let techStack :=
    RepositoryAnalyzer.push_if
      (existsb (fun f => endsWith f ".cs" || endsWith f ".csproj") files)
      (Tech.plain ".NET" "💜" "6.0+") techStack in
  techStack.

End App.

Import RepositoryAnalyzer LabspaceGenerator.

(** ** Vocabulary of the specification *)

(** The bucket labels in increasing order of duration. *)
Definition bucket_rank (label : string) : nat :=
  if String.eqb label "1-2 minutes" then 0
  else if String.eqb label "2-5 minutes" then 1
  else if String.eqb label "5-10 minutes" then 2
  else 3.

(** Twice the number of minutes of the estimate, as an integer. *)
Definition half_minutes (stackCount serviceCount : nat) : nat :=
  2 + stackCount + 2 * serviceCount.

(** The bucket for a number of half minutes: below 2, 5 and 10 minutes. *)
Definition bucket_of (halves : nat) : string :=
  if (halves <? 4)%nat then "1-2 minutes"
  else if (halves <? 10)%nat then "2-5 minutes"
  else if (halves <? 20)%nat then "5-10 minutes"
  else "10+ minutes".


(** *** Stack detection seen as a trigger table *)

(** The first stage of [detectTechStack], the only one that can throw. *)
Definition nodeStage (configFiles : gmap string string) : Result (list Tech.t) :=
  match config configFiles "package.json" with
  | Some text => entry ← nodeEntry text; mret [entry]
  | None => mret []
  end.

(** What the other stages push, in the order of the source. *)
Definition laterStages (configFiles : gmap string string) (files : list FileEntry.t)
  : list Tech.t :=
  option_list (pythonEntry <$> config configFiles "requirements.txt")
  ++ option_list (goEntry <$> config configFiles "go.mod")
  ++ (if present configFiles "pom.xml" || present configFiles "build.gradle"
      then [javaEntry configFiles] else [])
  ++ option_list (rubyEntry <$> config configFiles "Gemfile")
  ++ (if present configFiles "Cargo.toml" then [Tech.plain "Rust" "🦀" "latest"] else [])
  ++ (if present configFiles "composer.json"
         || existsb (fun f => endsWith (FileEntry.path f) ".php") files
      then [Tech.plain "PHP" "🐘" "8.1+"] else [])
  ++ (if present configFiles "pubspec.yaml"
      then [Tech.plain "Dart/Flutter" "🎯" "latest"] else [])
  ++ (if has_path files "Dockerfile" then [Tech.plain "Docker" "🐳" "latest"] else []).

(** The order in which [detectTechStack] of [server.js] runs its detectors. *)
Definition serverOrder : list string :=
  ["Node.js"; "Python"; "Go"; "Java"; "Ruby"; "Rust"; "PHP"; "Dart/Flutter"; "Docker"].

(** The order the specification gives for the trigger table. *)
Definition specOrder : list string :=
  ["Node.js"; "Python"; "Docker"; "Java"; "Go"; "Ruby"; "PHP"; "Rust"; ".NET";
   "Dart/Flutter"].

(** Is the trigger of the stack called [stack] satisfied?  A manifest
    trigger asks for a fetched manifest with non-empty content. *)
Definition trigger (fetch : string -> option string) (files : list FileEntry.t)
    (stack : string) : bool :=
  let configFiles := fetchConfigFiles fetch files in
  if String.eqb stack "Node.js" then present configFiles "package.json"
  else if String.eqb stack "Python" then present configFiles "requirements.txt"
  else if String.eqb stack "Go" then present configFiles "go.mod"
  else if String.eqb stack "Java" then
    present configFiles "pom.xml" || present configFiles "build.gradle"
  else if String.eqb stack "Ruby" then present configFiles "Gemfile"
  else if String.eqb stack "Rust" then present configFiles "Cargo.toml"
  else if String.eqb stack "PHP" then
    present configFiles "composer.json"
    || existsb (fun f => endsWith (FileEntry.path f) ".php") files
  else if String.eqb stack "Dart/Flutter" then present configFiles "pubspec.yaml"
  else if String.eqb stack "Docker" then has_path files "Dockerfile"
  else false.

(** [subseqb xs ys]: [xs] is [ys] with some elements left out. *)
Fixpoint subseqb (xs ys : list string) : bool :=
  match xs, ys with
  | [], _ => true
  | _ :: _, [] => false
  | x :: xs', y :: ys' =>
      if String.eqb x y then subseqb xs' ys' else subseqb xs ys'
  end.

(** The ordering property as the specification words it, for one input. *)
Definition follows_spec_order (fetch : string -> option string)
    (files : list FileEntry.t) : Prop :=
  forall ts, detectTechStack fetch files = Ok ts ->
             subseqb (map Tech.name ts) specOrder = true.

Definition file (path name : string) : FileEntry.t := FileEntry.mk path name 0.

(** A Maven project written in Go as well: both manifests are fetched. *)
Definition goJavaListing : list FileEntry.t :=
  [file "go.mod" "go.mod"; file "pom.xml" "pom.xml"].

Definition goJavaFetch (fileName : string) : option string :=
  if String.eqb fileName "go.mod" then Some "module demo"
  else if String.eqb fileName "pom.xml" then Some "<project/>"
  else None.


(** *** Listings without manifests *)

(** The recognised manifest file names, the container build file included. *)
Definition recognizedManifests : list string := keyFiles ++ ["Dockerfile"].

Definition mem_string (x : string) (l : list string) : bool := existsb (String.eqb x) l.

(** No entry of the listing has a recognised manifest as its path. *)
Definition noManifestPath (files : list FileEntry.t) : bool :=
  forallb (fun f => negb (mem_string (FileEntry.path f) recognizedManifests)) files.

(** No entry of the listing has a recognised manifest as its path or as its
    base name. *)
Definition noManifest (files : list FileEntry.t) : bool :=
  noManifestPath files
  && forallb (fun f => negb (mem_string (FileEntry.name f) recognizedManifests)) files.

Definition noServicePath (files : list FileEntry.t) : bool :=
  negb (hasDatabase files) && negb (hasRedis files) && negb (hasWeb files).

Definition noPhpSource (files : list FileEntry.t) : bool :=
  negb (existsb (fun f => endsWith (FileEntry.path f) ".php") files).

(** The six output paths, in the order in which they are generated. *)
Definition sixArtifacts : list string :=
  ["docker-compose.yml"; ".devcontainer/devcontainer.json"; ".vscode/settings.json";
   ".vscode/extensions.json"; "LABSPACE.md"; "scripts/start.sh"].

(** An archive step that always succeeds. *)
Definition archiveOk (labspaceFiles : list (string * string)) (outputPath : string)
  : Result unit := Ok tt.

(** The empty-profile property as the specification words it, for one input
    and one YAML module: detection gives an empty stack and no service, and
    synthesis of that profile returns the six artifacts. *)
Definition empty_profile_claim (yaml : YamlModule) (fetch : string -> option string)
    (files : list FileEntry.t) : Prop :=
  noManifest files = true -> noServicePath files = true ->
  forall owner repo description,
  exists p, analyzeRepository owner repo description fetch files = Ok p
            /\ RepoData.techStack p = []
            /\ RepoData.services p = []
            /\ forall JSON_stringify now_iso today Number_toString out,
               exists labspace,
                 generateLabspace yaml JSON_stringify now_iso today Number_toString
                   archiveOk p out = Ok labspace
                 /\ LabspaceGenerator.files labspace = sixArtifacts.

Definition noFetch (fileName : string) : option string := None.

(** A repository that holds a text file and nothing else. *)
Definition notesListing : list FileEntry.t := [file "README.md" "README.md"].


Definition volumePrinter : YamlModule :=
  {| dump := Some (fun compose =>
                     "volumes: " +:+ join "," (default [] (Compose.volumes compose))) |}.

(** A package descriptor whose [engines.node] is the number written as
    [literal]. *)
Definition enginePackage (literal : string) : string :=
  String.concat EmptyString [
    "{"; dq; "engines"; dq; ": {"; dq; "node"; dq; ": "; literal; "}}"
  ].

(** The version of the Node.js entry built from a descriptor text. *)
Definition nodeVersion (text : string) : option json :=
  match RepositoryAnalyzer.nodeEntry text with
  | Ok entry => Some (Tech.version entry)
  | Throw _ => None
  end.

(** A repository that holds one PHP source file and nothing else. *)
Definition phpListing : list FileEntry.t := [file "index.php" "index.php"].

(** A package descriptor cut short after its opening brace. *)
Definition brokenListing : list FileEntry.t := [file "package.json" "package.json"].

Definition brokenFetch (fileName : string) : option string :=
  if String.eqb fileName "package.json" then Some "{" else None.

(** The listing of the Go scenario; the sizes are free. *)
Definition goServerListing (size1 size2 : N) : list FileEntry.t :=
  [FileEntry.mk "go.mod" "go.mod" size1;
   FileEntry.mk "cmd/server/main.go" "main.go" size2].

Definition goMod : string :=
  String.concat nl ["module example.com/server"; EmptyString; "go 1.21"; EmptyString].

Definition goModFetch (fileName : string) : option string :=
  if String.eqb fileName "go.mod" then Some goMod else None.

Definition webServer : Service.t :=
  {| Service.name := "Web Server"; Service.type := "web"; Service.port := 3000 |}.


(** *** Dependency lists *)

(** The bound on runtime dependencies as the specification words it, for
    one input. *)
Definition runtime_bound_claim (fetch : string -> option string)
    (files : list FileEntry.t) : Prop :=
  forall ts entry deps,
    detectTechStack fetch files = Ok ts -> In entry ts ->
    Tech.dependencies entry = Some deps -> length deps <= 8.

(** A requirements file with nine pinned packages. *)
Definition nineRequirements : string :=
  String.concat nl
    ["flask==2.3.2"; "requests==2.31.0"; "numpy==1.26.0"; "pandas==2.1.1";
     "scipy==1.11.3"; "click==8.1.7"; "jinja2==3.1.2"; "pyyaml==6.0.1";
     "redis==5.0.1"].

Definition pythonListing : list FileEntry.t :=
  [file "requirements.txt" "requirements.txt"].

Definition pythonFetch (fileName : string) : option string :=
  if String.eqb fileName "requirements.txt" then Some nineRequirements else None.

(** A package descriptor with one runtime and one development dependency,
    next to a requirements file. *)
Definition expressPackage : string :=
  String.concat EmptyString [
    "{"; dq; "dependencies"; dq; ": {"; dq; "express"; dq; ": "; dq; "^4"; dq; "}, ";
    dq; "devDependencies"; dq; ": {"; dq; "jest"; dq; ": "; dq; "^29"; dq; "}}"
  ].

Definition mixedListing : list FileEntry.t :=
  [file "package.json" "package.json"; file "requirements.txt" "requirements.txt"].

Definition mixedFetch (fileName : string) : option string :=
  if String.eqb fileName "package.json" then Some expressPackage
  else if String.eqb fileName "requirements.txt" then Some nineRequirements
  else None.

(** The bound that the code puts on the runtime dependencies of an entry. *)
Definition runtime_bound (entry : Tech.t) : nat :=
  if String.eqb (Tech.name entry) "Python" then 10 else 8.


Definition expressEntry : Tech.t :=
  {| Tech.name := "Node.js";
     Tech.icon := "🟢";
     Tech.version := JStr ">=16.0.0";
     Tech.dependencies := Some ["express"];
     Tech.devDependencies := Some ["jest"];
     Tech.scripts := Some (JObj []);
     Tech.buildTool := None |}.


(** *** Ports *)

(** The default port of each service type. *)
Definition defaultPort (type : string) : option N :=
  if String.eqb type "postgres" then Some 5432%N
  else if String.eqb type "redis" then Some 6379%N
  else if String.eqb type "web" then Some 3000%N
  else None.






(** The comment lines that open the orchestration document. *)
Definition composeHeader (name now_iso : string) : string :=
  String.concat EmptyString [
    "# Generated Labspace Docker Compose"; nl;
    "# Repository: "; name; nl;
    "# Generated: "; now_iso; nl; nl
  ].


(** A Node.js shop with a schema directory and a server file. *)
Definition shopListing : list FileEntry.t :=
  [file "package.json" "package.json"; file "src/server.js" "server.js";
   file "db/schema.sql" "schema.sql"].

Definition shopFetch (fileName : string) : option string :=
  if String.eqb fileName "package.json" then Some expressPackage else None.

Definition database : Service.t :=
  {| Service.name := "Database"; Service.type := "postgres"; Service.port := 5432 |}.

Definition shopProfile : RepoData.t :=
  {| RepoData.owner := "octo";
     RepoData.name := "shop";
     RepoData.description := None;
     RepoData.files := ["package.json"; "src/server.js"; "db/schema.sql"];
     RepoData.techStack := [expressEntry];
     RepoData.services := [database; webServer];
     RepoData.ports := [5432%N; 3000%N];
     RepoData.hasDocker := false;
     RepoData.hasTests := false;
     RepoData.estimatedSetupTime := "2-5 minutes" |}.

(** *** Database volume and dependency *)

(** The database property as the specification words it, for one profile. *)
Definition database_claim (repoData : RepoData.t) : Prop :=
  let compose := composeObject repoData in
  has_service_named (RepoData.services repoData) "Database" = true ->
  Compose.volumes compose = Some ["db_data"]
  /\ (exists app, Compose.app (Compose.services compose) = Some app
                  /\ In "db" (Compose.depends_on app))
  /\ (is_Some (Compose.volumes compose)
      <-> is_Some (Compose.db (Compose.services compose))).

(** A repository that holds a schema file and nothing else. *)
Definition schemaListing : list FileEntry.t := [file "db/schema.sql" "schema.sql"].

Definition schemaProfile : RepoData.t :=
  {| RepoData.owner := "octo";
     RepoData.name := "schema";
     RepoData.description := None;
     RepoData.files := ["db/schema.sql"];
     RepoData.techStack := [];
     RepoData.services := [database];
     RepoData.ports := [5432%N];
     RepoData.hasDocker := false;
     RepoData.hasTests := false;
     RepoData.estimatedSetupTime := "2-5 minutes" |}.


(** *** Directory traversal *)

Definition is_git_dir (item : Item) : bool :=
  String.eqb (item_type item) "dir" && String.eqb (item_name item) ".git".

(** The tree without its directories called [.git]. *)
Fixpoint withoutGit (item : Item) : Item :=
  let 'Entry type path name size contents := item in
  Entry type path name size
    (match contents with
     | Some items =>
         Some ((fix prune (items : list Item) : list Item :=
                  match items with
                  | [] => []
                  | i :: r => if is_git_dir i then prune r else withoutGit i :: prune r
                  end) items)
     | None => None
     end).

(** The path that the hosting API reports for an item called [name] of the
    directory at [parent]. *)
Definition child_path (parent name : string) : string :=
  if String.eqb parent EmptyString then name else parent +:+ "/" +:+ name.

(** Every item below [item] has the path of its directory followed by its
    own name, and no name holds a slash. *)
Fixpoint api_paths (item : Item) : bool :=
  match item_contents item with
  | None => true
  | Some items =>
      (fix all (items : list Item) : bool :=
         match items with
         | [] => true
         | i :: r =>
             String.eqb (item_path i) (child_path (item_path item) (item_name i))
             && forallb Regex.not_slash (chars (item_name i))
             && api_paths i
             && all r
         end) items
  end.

(** A small repository: a text file, the [.git] directory, whose listing the
    API refuses, and a source directory. *)
Definition sampleRepository : Item :=
  Entry "dir" EmptyString EmptyString 0
    (Some [Entry "file" "README.md" "README.md" 120 None;
           Entry "dir" ".git" ".git" 0 None;
           Entry "dir" "src" "src" 0
             (Some [Entry "file" "src/server.js" "server.js" 640 None])]).


(** The items that [withoutGit] keeps of a listing. *)
Definition pruneList (items : list Item) : list Item :=
  flat_map (fun i => if is_git_dir i then [] else [withoutGit i]) items.

(** An item reported as the API reports the items of the directory at
    [parent]. *)
Definition api_child (parent : string) (i : Item) : bool :=
  String.eqb (item_path i) (child_path parent (item_name i))
  && forallb Regex.not_slash (chars (item_name i))
  && api_paths i.

(** A listed file whose path has at most [bound] segments. *)
Definition within (bound : nat) (f : FileEntry.t) : Prop :=
  segments (FileEntry.path f) <= bound.

(** A repository with directories five levels deep, one file in each. *)
Definition deepRepository : Item :=
  Entry "dir" EmptyString EmptyString 0
    (Some [Entry "dir" "a" "a" 0
       (Some [Entry "file" "a/1.txt" "1.txt" 1 None;
              Entry "dir" "a/b" "b" 0
         (Some [Entry "file" "a/b/2.txt" "2.txt" 2 None;
                Entry "dir" "a/b/c" "c" 0
           (Some [Entry "file" "a/b/c/3.txt" "3.txt" 3 None;
                  Entry "dir" "a/b/c/d" "d" 0
             (Some [Entry "file" "a/b/c/d/4.txt" "4.txt" 4 None])])])])]).


(** *** What detection depends on *)

(** Does the listing hold a PHP source file? *)
Definition hasPhpSource (files : list FileEntry.t) : bool :=
  existsb (fun f => endsWith (FileEntry.path f) ".php") files.

(** *** The generated descriptors *)

(** The member called [k] of a JSON object. *)
Definition json_field (v : json) (k : string) : option json :=
  match v with
  | JObj o => obj_get k o
  | _ => None
  end.

(** The install command of a stack, for the stacks that have one. *)
Definition installCommand (tech : Tech.t) : option string :=
  if name_is tech "Node.js" then Some "npm install"
  else if name_is tech "Python" then Some "pip install -r requirements.txt"
  else if name_is tech "Go" then Some "go mod tidy"
  else None.

(** The add-ons that the container descriptor installs for a stack. *)
Definition containerExtensions (tech : Tech.t) : list string :=
  if name_is tech "Node.js" then
    ["ms-vscode.vscode-typescript-next"; "esbenp.prettier-vscode"]
  else if name_is tech "Python" then ["ms-python.python"]
  else if name_is tech "Go" then ["golang.go"]
  else if name_is tech "Docker" then ["ms-azuretools.vscode-docker"]
  else [].

(** The add-ons that the editor configuration recommends for a stack. *)
Definition editorRecommendations (tech : Tech.t) : list string :=
  if name_is tech "Node.js" then
    ["ms-vscode.vscode-node-debug2"; "esbenp.prettier-vscode";
     "ms-vscode.vscode-typescript-next"]
  else if name_is tech "Python" then ["ms-python.python"; "ms-python.flake8"]
  else if name_is tech "Go" then ["golang.go"]
  else if name_is tech "Java" then ["redhat.java"; "vscjava.vscode-java-pack"]
  else if name_is tech "Docker" then ["ms-azuretools.vscode-docker"]
  else [].

Definition generalRecommendations : list string :=
  ["ms-vscode.vscode-json"; "redhat.vscode-yaml"; "ms-vscode.vscode-eslint"].

(** The block of the startup script for a stack, empty for the stacks
    that have none. *)
Definition scriptBlock (tech : Tech.t) : string :=
  if name_is tech "Node.js" then nodeBlock
  else if name_is tech "Python" then pythonBlock
  else if name_is tech "Go" then goBlock
  else EmptyString.

(** The opening lines of the startup script of a repository. *)
Definition scriptHeader (name : string) : string :=
  String.concat EmptyString [
    "#!/bin/bash"; nl; nl; "# Generated startup script for "; name; nl;
    "echo "; dq; "🚀 Starting "; name; " development environment..."; dq; nl; nl
  ].

(** The settings that every generated editor configuration starts from. *)
Definition baseSettings : list (string * json) :=
  [("editor.tabSize", JNum "2");
   ("editor.insertSpaces", JBool true);
   ("files.autoSave", JStr "onDelay");
   ("files.autoSaveDelay", JNum "1000");
   ("terminal.integrated.cwd", JStr "${workspaceFolder}")].

(** A polyglot stack, the Go entry listed twice. *)
Definition polyglotStack : list Tech.t :=
  [Tech.plain "Go" "🐹" "1.21"; expressEntry; Tech.plain "Rust" "🦀" "latest";
   Tech.plain "Go" "🐹" "1.21"].

(** ** Auxiliary facts *)

Lemma setupMinutes_lt (ts : list Tech.t) (ss : list Service.t) (k : nat) :
  Qltb (setupMinutes ts ss) (inject_Z (Z.of_nat k))
  = (half_minutes (length ts) (length ss) <? 2 * k)%nat.
Proof.
  unfold Qltb, Qle_bool, setupMinutes, half_minutes.
  remember (2 + length ts + 2 * length ss <? 2 * k)%nat as rhs eqn:Hrhs.
  cbn. rewrite ?Pos.mul_1_l, ?Pos.mul_1_r. subst rhs.
  destruct (Z.leb_spec (Z.of_nat k * 2)
              (((1 * 2 + Z.of_nat (length ts) * 1 * 1) * 1
                + Z.of_nat (length ss) * 1 * 2) * 1)%Z);
    destruct (Nat.ltb_spec (2 + length ts + 2 * length ss) (2 * k));
    simpl; try reflexivity; lia.
Qed.

Lemma estimateSetupTime_bucket (ts : list Tech.t) (ss : list Service.t) :
  estimateSetupTime ts ss = bucket_of (half_minutes (length ts) (length ss)).
Proof.
  unfold estimateSetupTime, bucket_of.
  change 2%Q with (inject_Z (Z.of_nat 2)).
  change 5%Q with (inject_Z (Z.of_nat 5)).
  change 10%Q with (inject_Z (Z.of_nat 10)).
  rewrite !setupMinutes_lt. reflexivity.
Qed.

Lemma bucket_rank_mono (a b : nat) :
  a <= b -> bucket_rank (bucket_of a) <= bucket_rank (bucket_of b).
Proof.
  intros Hab. unfold bucket_of.
  destruct (Nat.ltb_spec a 4), (Nat.ltb_spec a 10), (Nat.ltb_spec a 20),
    (Nat.ltb_spec b 4), (Nat.ltb_spec b 10), (Nat.ltb_spec b 20);
    cbn; lia.
Qed.

Lemma find_path_existsb (files : list FileEntry.t) (k : string) :
  List.find (fun f => String.eqb (FileEntry.path f) k) files = None
  <-> has_path files k = false.
Proof.
  unfold has_path. induction files as [|f files IH]; cbn; [tauto|].
  destruct (String.eqb (FileEntry.path f) k); cbn; [split; discriminate|exact IH].
Qed.

Lemma fetchStep_lookup fetch files (m : gmap string string) (a k : string) :
  fetchStep fetch files m a !! k =
    if bool_decide (a = k) && has_path files a
    then match fetch a with Some c => Some c | None => m !! k end
    else m !! k.
Proof.
  unfold fetchStep.
  destruct (List.find _ files) eqn:Hfind.
  - assert (has_path files a = true) as ->.
    { destruct (has_path files a) eqn:Hp; [reflexivity|].
      apply find_path_existsb in Hp. congruence. }
    rewrite andb_true_r. case_bool_decide as Hak.
    + subst. destruct (fetch k); [apply lookup_insert_eq|reflexivity].
    + destruct (fetch a); [apply lookup_insert_ne; exact Hak|reflexivity].
  - apply find_path_existsb in Hfind. rewrite Hfind, andb_false_r. reflexivity.
Qed.

(** What the loop leaves under a key: the fetched content of a key file
    that is in the listing, when the fetch succeeds. *)
Lemma fetch_fold_lookup fetch files (ks : list string) (m : gmap string string)
    (k : string) :
  fold_left (fetchStep fetch files) ks m !! k =
    if bool_decide (k ∈ ks) && has_path files k
    then match fetch k with Some c => Some c | None => m !! k end
    else m !! k.
Proof.
  revert m. induction ks as [|a ks IH]; intros m; cbn [fold_left].
  - rewrite bool_decide_eq_false_2 by (apply not_elem_of_nil). reflexivity.
  - rewrite IH, fetchStep_lookup.
    destruct (decide (a = k)) as [->|Hne].
    + rewrite (bool_decide_eq_true_2 (k = k)) by reflexivity.
      rewrite (bool_decide_eq_true_2 (k ∈ k :: ks))
        by (apply elem_of_cons; left; reflexivity).
      cbn [andb].
      destruct (has_path files k); rewrite ?andb_false_r, ?andb_true_r;
        [|reflexivity].
      destruct (fetch k); destruct (bool_decide (k ∈ ks)); reflexivity.
    + rewrite (bool_decide_eq_false_2 (a = k)) by exact Hne. cbn [andb].
      assert (bool_decide (k ∈ a :: ks) = bool_decide (k ∈ ks)) as ->.
      { apply bool_decide_ext. rewrite elem_of_cons.
        split; [intros [E|E]; [congruence|exact E]|intros E; right; exact E]. }
      reflexivity.
Qed.

Lemma fetchConfigFiles_lookup fetch files (k : string) :
  fetchConfigFiles fetch files !! k =
    if bool_decide (k ∈ keyFiles) && has_path files k then fetch k else None.
Proof.
  unfold fetchConfigFiles. rewrite fetch_fold_lookup, lookup_empty.
  destruct (_ && _); [destruct (fetch k)|]; reflexivity.
Qed.

Lemma config_absent fetch files (k : string) :
  has_path files k = false -> config (fetchConfigFiles fetch files) k = None.
Proof.
  intros H. unfold config. rewrite fetchConfigFiles_lookup, H, andb_false_r. reflexivity.
Qed.

Lemma present_absent fetch files (k : string) :
  has_path files k = false -> present (fetchConfigFiles fetch files) k = false.
Proof.
  intros H. unfold present. rewrite config_absent by exact H.
  apply bool_decide_eq_false_2. intros [? ?]. discriminate.
Qed.

Lemma present_config (cfg : gmap string string) (k : string) :
  present cfg k = match config cfg k with Some _ => true | None => false end.
Proof.
  unfold present. destruct (config cfg k).
  - apply bool_decide_eq_true_2. eauto.
  - apply bool_decide_eq_false_2. intros [? ?]. discriminate.
Qed.

(** A manifest trigger in terms of the inputs: the key file is in the
    listing and its fetch gave a non-empty text. *)
Lemma config_fetched fetch files (k text : string) :
  In k keyFiles ->
  (config (fetchConfigFiles fetch files) k = Some text
   <-> has_path files k = true /\ fetch k = Some text /\ text <> EmptyString).
Proof.
  intros Hk. unfold config. rewrite fetchConfigFiles_lookup.
  rewrite bool_decide_eq_true_2 by (apply list_elem_of_In; exact Hk). cbn [andb].
  destruct (has_path files k); [|split; [discriminate|intros [? _]; discriminate]].
  destruct (fetch k) as [content|]; [|split; [discriminate|intros (_ & ? & _); discriminate]].
  destruct (String.eqb_spec content EmptyString) as [->|Hne].
  - split; [discriminate|]. intros (_ & [= <-] & Hne). contradiction.
  - split.
    + intros [= <-]. auto.
    + intros (_ & [= <-] & _). reflexivity.
Qed.

Lemma push_for_app {A B : Type} (o : option B) (f : B -> A) (l : list A) :
  push_for o f l = l ++ option_list (f <$> o).
Proof. destruct o; cbn; [reflexivity|symmetry; apply app_nil_r]. Qed.

Lemma push_if_app {A : Type} (c : bool) (x : A) (l : list A) :
  push_if c x l = l ++ (if c then [x] else []).
Proof. destruct c; cbn; [reflexivity|symmetry; apply app_nil_r]. Qed.

(** [detectTechStack] is its first stage followed by the pushes of the
    later ones. *)
Lemma detectTechStack_stages fetch files :
  detectTechStack fetch files =
    (node ← nodeStage (fetchConfigFiles fetch files);
     mret (node ++ laterStages (fetchConfigFiles fetch files) files)).
Proof.
  unfold detectTechStack, nodeStage, laterStages.
  set (cfg := fetchConfigFiles fetch files).
  destruct (config cfg "package.json") as [text|]; cbn.
  - destruct (nodeEntry text) as [entry|e]; cbn; [|reflexivity].
    rewrite !push_if_app, !push_for_app, <- !app_assoc. reflexivity.
  - rewrite !push_if_app, !push_for_app, <- !app_assoc. reflexivity.
Qed.

Lemma detectTechStack_Ok fetch files ts :
  detectTechStack fetch files = Ok ts ->
  exists node, nodeStage (fetchConfigFiles fetch files) = Ok node
               /\ ts = node ++ laterStages (fetchConfigFiles fetch files) files.
Proof.
  rewrite detectTechStack_stages.
  destruct (nodeStage _) as [node|e]; cbn; [|discriminate].
  intros [= <-]. eauto.
Qed.

Lemma nodeEntry_name text entry : nodeEntry text = Ok entry -> Tech.name entry = "Node.js".
Proof.
  unfold nodeEntry.
  destruct (JSON_parse text) as [pj|]; cbn; [|discriminate].
  destruct (get_prop pj "engines"); cbn; [|discriminate].
  destruct (get_prop pj "dependencies"); cbn; [|discriminate].
  destruct (get_prop pj "devDependencies"); cbn; [|discriminate].
  destruct (get_prop pj "scripts"); cbn; [|discriminate].
  intros [= <-]. reflexivity.
Qed.

Lemma nodeStage_names cfg node :
  nodeStage cfg = Ok node ->
  map Tech.name node = if present cfg "package.json" then ["Node.js"] else [].
Proof.
  unfold nodeStage. rewrite present_config.
  destruct (config cfg "package.json") as [text|]; cbn.
  - destruct (nodeEntry text) as [entry|] eqn:He; cbn; [|discriminate].
    intros [= <-]. cbn. rewrite (nodeEntry_name _ _ He). reflexivity.
  - intros [= <-]. reflexivity.
Qed.

Lemma laterStages_names cfg files :
  map Tech.name (laterStages cfg files) =
    (if present cfg "requirements.txt" then ["Python"] else [])
    ++ (if present cfg "go.mod" then ["Go"] else [])
    ++ (if present cfg "pom.xml" || present cfg "build.gradle" then ["Java"] else [])
    ++ (if present cfg "Gemfile" then ["Ruby"] else [])
    ++ (if present cfg "Cargo.toml" then ["Rust"] else [])
    ++ (if present cfg "composer.json"
           || existsb (fun f => endsWith (FileEntry.path f) ".php") files
        then ["PHP"] else [])
    ++ (if present cfg "pubspec.yaml" then ["Dart/Flutter"] else [])
    ++ (if has_path files "Dockerfile" then ["Docker"] else []).
Proof.
  unfold laterStages. rewrite !map_app.
  rewrite (present_config cfg "requirements.txt"), (present_config cfg "go.mod"),
    (present_config cfg "Gemfile").
  destruct (config cfg "requirements.txt"), (config cfg "go.mod"),
    (config cfg "Gemfile"); cbn [option_list fmap option_fmap option_map map app];
    repeat match goal with |- context [if ?b then _ else _] => destruct b end;
    reflexivity.
Qed.

(** C2, as the code has it: the names of the detected stacks are the
    entries of the fixed table Node.js, Python, Go, Java, Ruby, Rust, PHP,
    Dart/Flutter, Docker whose trigger is satisfied, in the order of the
    table; an unsatisfied trigger only leaves its slot out. *)
Theorem detectTechStack_order fetch files ts :
  detectTechStack fetch files = Ok ts ->
  map Tech.name ts = List.filter (trigger fetch files) serverOrder.
Proof.
  intros H. apply detectTechStack_Ok in H as (node & Hnode & ->).
  rewrite map_app, (nodeStage_names _ _ Hnode), laterStages_names.
  unfold serverOrder, trigger.
  generalize (present (fetchConfigFiles fetch files) "package.json") as node_js.
  generalize (present (fetchConfigFiles fetch files) "requirements.txt") as python.
  generalize (present (fetchConfigFiles fetch files) "go.mod") as go.
  generalize (present (fetchConfigFiles fetch files) "pom.xml"
              || present (fetchConfigFiles fetch files) "build.gradle") as java.
  generalize (present (fetchConfigFiles fetch files) "Gemfile") as ruby.
  generalize (present (fetchConfigFiles fetch files) "Cargo.toml") as rust.
  generalize (present (fetchConfigFiles fetch files) "composer.json"
              || existsb (fun f => endsWith (FileEntry.path f) ".php") files) as php.
  generalize (present (fetchConfigFiles fetch files) "pubspec.yaml") as dart.
  generalize (has_path files "Dockerfile") as docker.
  intros [] [] [] [] [] [] [] [] []; reflexivity.
Qed.

Lemma detectTechStack_order_witness :
  map Tech.name
    [goEntry "module demo"; javaEntry (fetchConfigFiles goJavaFetch goJavaListing)]
  = List.filter (trigger goJavaFetch goJavaListing) serverOrder.
Proof.
  apply (detectTechStack_order goJavaFetch goJavaListing). vm_compute. reflexivity.
Defined.

(** C2 as stated fails: with a Go module file and a Maven descriptor the
    output is Go, then Java, while the specification's table has Java
    before Go. *)
Lemma spec_order_refuted : ~ follows_spec_order goJavaFetch goJavaListing.
Proof.
  intros H. specialize (H _ eq_refl). vm_compute in H. discriminate H.
Qed.

Lemma noManifestPath_has_path files (k : string) :
  noManifestPath files = true -> mem_string k recognizedManifests = true ->
  has_path files k = false.
Proof.
  unfold noManifestPath, has_path. intros Hall Hk.
  induction files as [|f files IH]; cbn [forallb existsb] in Hall |- *; [reflexivity|].
  apply andb_true_iff in Hall as [Hf Hall]. rewrite (IH Hall), orb_false_r.
  destruct (String.eqb_spec (FileEntry.path f) k) as [E|]; [|reflexivity].
  rewrite E, Hk in Hf. discriminate.
Qed.

Lemma detectTechStack_no_trigger fetch files :
  noManifestPath files = true -> noPhpSource files = true ->
  detectTechStack fetch files = Ok [].
Proof.
  intros Hm Hphp. rewrite detectTechStack_stages. unfold nodeStage, laterStages.
  apply negb_true_iff in Hphp.
  rewrite !config_absent, !present_absent, Hphp
    by (apply noManifestPath_has_path; [exact Hm|reflexivity]).
  rewrite noManifestPath_has_path by (exact Hm || reflexivity).
  reflexivity.
Qed.

Lemma detectServices_no_match files :
  noServicePath files = true -> detectServices files = [].
Proof.
  unfold noServicePath, detectServices. intros H.
  apply andb_true_iff in H as [H Hweb]. apply andb_true_iff in H as [Hdb Hredis].
  apply negb_true_iff in Hweb, Hdb, Hredis. rewrite Hweb, Hdb, Hredis. reflexivity.
Qed.

Lemma string_app_assoc (a b c : string) : (a +:+ b) +:+ c = a +:+ (b +:+ c).
Proof.
  induction a as [|x a IH]; [reflexivity|].
  change (String x ((a +:+ b) +:+ c) = String x (a +:+ b +:+ c)).
  f_equal. exact IH.
Qed.

Lemma string_app_nil_r (a : string) : a +:+ EmptyString = a.
Proof.
  induction a as [|x a IH]; [reflexivity|].
  change (String x (a +:+ EmptyString) = String x a). f_equal. exact IH.
Qed.

(** A call of a property that the module does not have throws. *)
Lemma call_undefined {A B : Type} (x : A) : call (@None (A -> B)) x = Throw TypeError.
Proof. reflexivity. Qed.

Lemma concat_empty_cons piece pieces :
  String.concat EmptyString (piece :: pieces)
  = piece +:+ String.concat EmptyString pieces.
Proof.
  destruct pieces as [|next pieces]; [|reflexivity].
  cbn [String.concat]. symmetry. apply string_app_nil_r.
Qed.

Lemma concat_empty_app pieces1 pieces2 :
  String.concat EmptyString (pieces1 ++ pieces2)
  = String.concat EmptyString pieces1 +:+ String.concat EmptyString pieces2.
Proof.
  induction pieces1 as [|piece pieces1 IH]; [reflexivity|].
  rewrite <- app_comm_cons, !concat_empty_cons, IH. symmetry. apply string_app_assoc.
Qed.

(** With a YAML module that has [dump], the orchestration document is the
    header followed by what [dump] prints for the compose object. *)
Lemma generateDockerCompose_prints yaml now_iso repoData printer :
  dump yaml = Some printer ->
  generateDockerCompose yaml now_iso repoData
  = Ok (composeHeader (RepoData.name repoData) now_iso
        +:+ printer (composeObject repoData)).
Proof.
  intros Hdump. unfold generateDockerCompose. rewrite Hdump. cbn [call mbind Result_bind].
  f_equal. unfold composeHeader.
  match goal with
  | |- String.concat _ ?pieces = _ =>
      change pieces with (firstn 9 pieces ++ skipn 9 pieces)
  end.
  rewrite concat_empty_app. reflexivity.
Qed.

(** With the package [yaml] the call of [dump] throws, whatever the
    profile: no orchestration document is made. *)
Lemma generateDockerCompose_throws now_iso repoData :
  generateDockerCompose yaml_package now_iso repoData = Throw TypeError.
Proof. reflexivity. Qed.

(** ... and [generateLabspace] fails in its first statement. *)
Lemma generateLabspace_throws JSON_stringify now_iso today Number_toString
    createZipPackage repoData out :
  generateLabspace yaml_package JSON_stringify now_iso today Number_toString
    createZipPackage repoData out
  = Throw TypeError.
Proof. reflexivity. Qed.

(** With a YAML module that has [dump] and an archive step that succeeds,
    synthesis yields the same six paths for every profile. *)
Lemma generateLabspace_six yaml JSON_stringify now_iso today Number_toString
    createZipPackage repoData out printer :
  dump yaml = Some printer ->
  (forall labspaceFiles, createZipPackage labspaceFiles out = Ok tt) ->
  generateLabspace yaml JSON_stringify now_iso today Number_toString
    createZipPackage repoData out
  = Ok {| LabspaceGenerator.files := sixArtifacts; downloadPath := out |}.
Proof.
  intros Hdump Hzip. unfold generateLabspace.
  rewrite (generateDockerCompose_prints _ _ _ _ Hdump). cbn [mbind Result_bind].
  rewrite Hzip. reflexivity.
Qed.

(** A rejected archive step rejects the synthesis. *)
Lemma generateLabspace_archive_fails yaml JSON_stringify now_iso today Number_toString
    createZipPackage repoData out printer e :
  dump yaml = Some printer ->
  (forall labspaceFiles, createZipPackage labspaceFiles out = Throw e) ->
  generateLabspace yaml JSON_stringify now_iso today Number_toString
    createZipPackage repoData out
  = Throw e.
Proof.
  intros Hdump Hzip. unfold generateLabspace.
  rewrite (generateDockerCompose_prints _ _ _ _ Hdump). cbn [mbind Result_bind].
  rewrite Hzip. reflexivity.
Qed.

(** C3, as the code has it: a listing with no recognised manifest path, no
    path ending in [.php] and no service-matching path is analysed into a
    profile with empty stack, service and port sequences. *)
Theorem empty_listing_profile fetch files owner repo description :
  noManifestPath files = true -> noPhpSource files = true ->
  noServicePath files = true ->
  exists p, analyzeRepository owner repo description fetch files = Ok p
            /\ RepoData.techStack p = []
            /\ RepoData.services p = []
            /\ RepoData.ports p = [].
Proof.
  intros Hm Hphp Hsvc. unfold analyzeRepository.
  rewrite (detectTechStack_no_trigger fetch files Hm Hphp).
  rewrite (detectServices_no_match files Hsvc).
  eexists. split; [reflexivity|].
  split; [reflexivity|]. split; reflexivity.
Qed.

Lemma empty_listing_profile_witness :
  exists p, analyzeRepository "octo" "notes" None noFetch notesListing = Ok p
            /\ RepoData.techStack p = []
            /\ RepoData.services p = []
            /\ RepoData.ports p = [].
Proof.
  apply (empty_listing_profile noFetch notesListing); reflexivity.
Defined.

(** C3 as stated fails: a lone PHP source file is neither a manifest nor a
    service-matching path, yet it puts a PHP entry on the stack, whatever
    the YAML module of the synthesis is. *)
Lemma empty_profile_refuted : ~ exists yaml, empty_profile_claim yaml noFetch phpListing.
Proof.
  intros [yaml H].
  destruct (H eq_refl eq_refl "octo" "site" None) as (p & Hp & Hts & _).
  vm_compute in Hp. injection Hp as <-. discriminate Hts.
Qed.

(** C5 fails on the code: an unparseable package descriptor makes
    [detectTechStack] throw, and the analysis fails as a whole. *)
Theorem malformed_package_json_throws :
  JSON_parse "{" = Throw SyntaxError
  /\ detectTechStack brokenFetch brokenListing = Throw SyntaxError
  /\ analyzeRepository "octo" "app" None brokenFetch brokenListing
     = Throw (AnalysisFailed SyntaxError).
Proof. repeat split; vm_compute; reflexivity. Qed.

Lemma nodeEntry_fields text entry :
  nodeEntry text = Ok entry ->
  exists packageJson deps devDeps,
    JSON_parse text = Ok packageJson
    /\ get_prop packageJson "dependencies" = Ok deps
    /\ get_prop packageJson "devDependencies" = Ok devDeps
    /\ Tech.dependencies entry = Some (take 8 (keys_or_empty deps))
    /\ Tech.devDependencies entry = Some (take 5 (keys_or_empty devDeps)).
Proof.
  unfold nodeEntry.
  destruct (JSON_parse text) as [pj|]; cbn; [|discriminate].
  destruct (get_prop pj "engines"); cbn; [|discriminate].
  destruct (get_prop pj "dependencies") as [deps|] eqn:Hdeps; cbn; [|discriminate].
  destruct (get_prop pj "devDependencies") as [devDeps|] eqn:Hdev; cbn; [|discriminate].
  destruct (get_prop pj "scripts"); cbn; [|discriminate].
  intros [= <-]. exists pj, deps, devDeps. repeat split; assumption.
Qed.

(** Every entry of the stack is either the Node.js entry of the first stage
    or one of the later stages' entries. *)
Lemma laterStages_In cfg files entry :
  In entry (laterStages cfg files) ->
  (exists text, config cfg "requirements.txt" = Some text /\ entry = pythonEntry text)
  \/ (Tech.name entry <> "Node.js" /\ Tech.name entry <> "Python"
      /\ Tech.dependencies entry = None /\ Tech.devDependencies entry = None).
Proof.
  unfold laterStages. rewrite !in_app_iff.
  intros [H|[H|[H|[H|[H|[H|[H|H]]]]]]].
  - destruct (config cfg "requirements.txt") as [text|]; cbn in H; [|tauto].
    destruct H as [<-|[]]. left. eauto.
  - destruct (config cfg "go.mod"); cbn in H; [|tauto].
    destruct H as [<-|[]]. right. repeat split; discriminate.
  - destruct (_ || _); cbn in H; [|tauto].
    destruct H as [<-|[]]. right. repeat split; discriminate.
  - destruct (config cfg "Gemfile"); cbn in H; [|tauto].
    destruct H as [<-|[]]. right. repeat split; discriminate.
  - destruct (present cfg "Cargo.toml"); cbn in H; [|tauto].
    destruct H as [<-|[]]. right. repeat split; discriminate.
  - destruct (_ || _); cbn in H; [|tauto].
    destruct H as [<-|[]]. right. repeat split; discriminate.
  - destruct (present cfg "pubspec.yaml"); cbn in H; [|tauto].
    destruct H as [<-|[]]. right. repeat split; discriminate.
  - destruct (has_path files "Dockerfile"); cbn in H; [|tauto].
    destruct H as [<-|[]]. right. repeat split; discriminate.
Qed.

Lemma nodeStage_In cfg node entry :
  nodeStage cfg = Ok node -> In entry node ->
  exists text, config cfg "package.json" = Some text /\ nodeEntry text = Ok entry.
Proof.
  unfold nodeStage. destruct (config cfg "package.json") as [text|]; cbn.
  - destruct (nodeEntry text) as [e|] eqn:He; cbn; [|discriminate].
    intros [= <-] [<-|[]]. eauto.
  - intros [= <-] [].
Qed.

Lemma requirementLines_length text : length (requirementLines text) <= 10.
Proof. unfold requirementLines. rewrite length_take. lia. Qed.

(** Without array indices among its keys, an object lists its keys in the
    order in which the manifest declares them. *)
Lemma own_keys_creation_order {A : Type} (o : list (string * A)) :
  Forall (fun k => array_index k = None) (map fst o) -> own_keys o = map fst o.
Proof.
  unfold own_keys. generalize (map fst o) as ks. intros ks Hks.
  induction Hks as [|k ks Hk Hks IH]; [reflexivity|].
  cbn [omap list_omap]. rewrite Hk.
  rewrite filter_cons_True by exact Hk.
  cbn [omap list_omap] in IH. destruct (omap array_index ks) eqn:Hom.
  - cbn in *. f_equal. exact IH.
  - exfalso. clear IH. induction Hks as [|k' ks' Hk' Hks' IH']; cbn in Hom; [discriminate|].
    rewrite Hk' in Hom. auto.
Qed.

(** C7, as the code has it.  The Node.js entry lists the first 8 keys of
    the [dependencies] object and the first 5 keys of [devDependencies], in
    [Object.keys] order, which is the order of the manifest when no key is
    an array index.  The Python entry lists the first 10 lines of the
    requirements file that are neither blank nor start with [#], each cut
    before its first [==], then before its first [>=], and trimmed.  No
    other entry carries dependencies. *)
Theorem dependency_extraction fetch files ts entry :
  detectTechStack fetch files = Ok ts -> In entry ts ->
  (Tech.name entry = "Node.js" ->
     exists text packageJson deps devDeps,
       config (fetchConfigFiles fetch files) "package.json" = Some text
       /\ JSON_parse text = Ok packageJson
       /\ get_prop packageJson "dependencies" = Ok deps
       /\ get_prop packageJson "devDependencies" = Ok devDeps
       /\ Tech.dependencies entry = Some (take 8 (keys_or_empty deps))
       /\ Tech.devDependencies entry = Some (take 5 (keys_or_empty devDeps))
       /\ (forall o, deps = Some (JObj o) ->
                     Forall (fun k => array_index k = None) (map fst o) ->
                     Tech.dependencies entry = Some (take 8 (map fst o))))
  /\ (Tech.name entry = "Python" ->
        exists text,
          config (fetchConfigFiles fetch files) "requirements.txt" = Some text
          /\ Tech.dependencies entry
             = Some (map requirementName
                       (take 10 (List.filter keepRequirement (split_newline text))))
          /\ Tech.devDependencies entry = None)
  /\ (forall deps, Tech.dependencies entry = Some deps ->
                   length deps <= runtime_bound entry)
  /\ (forall devDeps, Tech.devDependencies entry = Some devDeps ->
                      length devDeps <= 5)
  /\ (Tech.name entry <> "Node.js" -> Tech.name entry <> "Python" ->
      Tech.dependencies entry = None /\ Tech.devDependencies entry = None).
Proof.
  intros Hts Hin. apply detectTechStack_Ok in Hts as (node & Hnode & ->).
  apply in_app_iff in Hin as [Hin|Hin].
  - destruct (nodeStage_In _ _ _ Hnode Hin) as (text & Hcfg & Hentry).
    pose proof (nodeEntry_name _ _ Hentry) as Hname.
    destruct (nodeEntry_fields _ _ Hentry)
      as (pj & deps & dev & Hp & Hd & Hv & Hdeps & Hdev).
    split; [|split; [|split; [|split]]].
    + intros _. exists text, pj, deps, dev.
      do 6 (split; [assumption|]).
      intros o -> Ho. rewrite Hdeps. unfold keys_or_empty. cbn.
      rewrite (own_keys_creation_order o Ho). reflexivity.
    + rewrite Hname. discriminate.
    + intros d Hd'. rewrite Hdeps in Hd'. injection Hd' as <-.
      unfold runtime_bound. rewrite Hname. cbn. rewrite length_take. lia.
    + intros d Hd'. rewrite Hdev in Hd'. injection Hd' as <-.
      rewrite length_take. lia.
    + congruence.
  - destruct (laterStages_In _ _ _ Hin) as [(text & Hcfg & ->)|(Hn1 & Hn2 & Hd & Hv)].
    + split; [|split; [|split; [|split]]].
      * discriminate.
      * intros _. exists text. split; [exact Hcfg|]. split; reflexivity.
      * intros d [= <-]. cbn. rewrite length_map. apply requirementLines_length.
      * discriminate.
      * cbn. congruence.
    + split; [|split; [|split; [|split]]]; try congruence.
      intros _ _. split; assumption.
Qed.

Lemma dependency_extraction_witness :
  Tech.dependencies (pythonEntry nineRequirements)
  = Some ["flask"; "requests"; "numpy"; "pandas"; "scipy"; "click"; "jinja2";
          "pyyaml"; "redis"]
  /\ Tech.dependencies expressEntry = Some ["express"]
  /\ length ["express"] <= runtime_bound expressEntry.
Proof.
  assert (detectTechStack mixedFetch mixedListing
          = Ok [expressEntry; pythonEntry nineRequirements]) as Hts
    by (vm_compute; reflexivity).
  split; [vm_compute; reflexivity|]. split; [reflexivity|].
  apply (dependency_extraction mixedFetch mixedListing _ expressEntry Hts);
    [left; reflexivity|reflexivity].
Defined.

(** C7 as stated fails: nine pinned requirements give nine runtime
    dependencies, one more than the bound of 8. *)
Lemma runtime_bound_refuted : ~ runtime_bound_claim pythonFetch pythonListing.
Proof.
  intros H.
  specialize (H [pythonEntry nineRequirements] (pythonEntry nineRequirements)
                (map requirementName (requirementLines nineRequirements))).
  assert (9 <= 8) as Habs; [|lia].
  change 9 with (length (map requirementName (requirementLines nineRequirements))).
  apply H; [vm_compute; reflexivity|left; reflexivity|reflexivity].
Qed.

(** The version operators that are stripped are [==] and [>=] only. *)
Example requirementName_examples :
  map requirementName ["flask==2.3.2"; "requests >= 2.0"; "numpy~=1.26"; "  uvicorn  "]
  = ["flask"; "requests"; "numpy~=1.26"; "uvicorn"].
Proof. reflexivity. Qed.

(** C8 fails on the code.  The listing made of a Go module file that
    declares [go 1.21] and of [cmd/server/main.go] is analysed into one Go
    entry with version 1.21 and exactly one service, the web server on port
    3000, and the compose object of that profile maps 3000 to 3000 in its
    primary service; but [generateDockerCompose] then calls [dump] of the
    package [yaml], which has none, and throws: no orchestration document
    is produced, and the synthesis fails as a whole. *)
Theorem go_server_scenario :
  exists p,
    analyzeRepository "octo" "server" None goModFetch (goServerListing 64 512) = Ok p
    /\ RepoData.techStack p = [Tech.plain "Go" "🐹" "1.21"]
    /\ RepoData.services p = [webServer]
    /\ Service.port webServer = 3000%N
    /\ Compose.app_ports <$> Compose.app (Compose.services (composeObject p))
       = Some ["3000:3000"]
    /\ (forall now_iso, generateDockerCompose yaml_package now_iso p = Throw TypeError)
    /\ (forall JSON_stringify now_iso today Number_toString createZipPackage out,
          generateLabspace yaml_package JSON_stringify now_iso today Number_toString
            createZipPackage p out
          = Throw TypeError).
Proof.
  eexists. split; [vm_compute; reflexivity|].
  do 4 (split; [reflexivity|]). split; reflexivity.
Qed.

Lemma analyzeRepository_services owner repo description fetch files p :
  analyzeRepository owner repo description fetch files = Ok p ->
  RepoData.services p = detectServices files
  /\ RepoData.ports p = map Service.port (detectServices files).
Proof.
  unfold analyzeRepository. destruct (detectTechStack fetch files); [|discriminate].
  intros [= <-]. split; reflexivity.
Qed.

Lemma detectServices_In files service :
  In service (detectServices files) ->
  service = database \/ service = webServer
  \/ service = {| Service.name := "Redis"; Service.type := "redis"; Service.port := 6379 |}.
Proof.
  unfold detectServices.
  destruct (hasDatabase files), (hasRedis files), (hasWeb files); cbn; intuition auto.
Qed.

Lemma detectServices_defaultPort files service :
  In service (detectServices files) ->
  defaultPort (Service.type service) = Some (Service.port service).
Proof.
  intros H. apply detectServices_In in H as [-> | [-> | ->]]; reflexivity.
Qed.

Example shopProfile_analysed :
  analyzeRepository "octo" "shop" None shopFetch shopListing = Ok shopProfile.
Proof. vm_compute. reflexivity. Qed.

Example schemaProfile_analysed :
  analyzeRepository "octo" "schema" None noFetch schemaListing = Ok schemaProfile.
Proof. vm_compute. reflexivity. Qed.

(** C9: the port of a service entry is fixed by its type.  Whatever the
    two analyses, their listings and their fetched contents, an entry of
    either carries the default port of its type (5432 for the database,
    6379 for the cache, 3000 for the web server), so two entries of the
    same type carry the same port. *)
Theorem static_ports owner1 repo1 description1 fetch1 files1 p1
    owner2 repo2 description2 fetch2 files2 p2 service1 service2 :
  analyzeRepository owner1 repo1 description1 fetch1 files1 = Ok p1 ->
  analyzeRepository owner2 repo2 description2 fetch2 files2 = Ok p2 ->
  In service1 (RepoData.services p1) -> In service2 (RepoData.services p2) ->
  defaultPort (Service.type service1) = Some (Service.port service1)
  /\ defaultPort (Service.type service2) = Some (Service.port service2)
  /\ (Service.type service1 = Service.type service2 ->
      Service.port service1 = Service.port service2).
Proof.
  intros H1 H2 Hin1 Hin2.
  apply analyzeRepository_services in H1 as [H1 _], H2 as [H2 _].
  rewrite H1 in Hin1. rewrite H2 in Hin2.
  apply detectServices_defaultPort in Hin1, Hin2.
  split; [exact Hin1|]. split; [exact Hin2|].
  intros Htype. rewrite Htype in Hin1. congruence.
Qed.

Lemma static_ports_witness :
  defaultPort (Service.type database) = Some (Service.port database)
  /\ defaultPort (Service.type database) = Some (Service.port database)
  /\ (Service.type database = Service.type database ->
      Service.port database = Service.port database).
Proof.
  apply (static_ports "octo" "shop" None shopFetch shopListing shopProfile
                      "octo" "schema" None noFetch schemaListing schemaProfile);
    [vm_compute; reflexivity|vm_compute; reflexivity|left; reflexivity|left; reflexivity].
Defined.

(** C6: the estimate is the bucket of 1 + 0.5 per stack entry + 1 per
    service entry under the thresholds 2, 5 and 10 (compared here in half
    minutes), and it never goes down when either count goes up. *)
Theorem setup_time_monotonic (ts ts' : list Tech.t) (ss ss' : list Service.t) :
  length ts <= length ts' -> length ss <= length ss' ->
  estimateSetupTime ts ss = bucket_of (half_minutes (length ts) (length ss))
  /\ bucket_rank (estimateSetupTime ts ss) <= bucket_rank (estimateSetupTime ts' ss').
Proof.
  intros Ht Hs. split; [apply estimateSetupTime_bucket|].
  rewrite !estimateSetupTime_bucket. apply bucket_rank_mono.
  unfold half_minutes. lia.
Qed.

Lemma setup_time_monotonic_witness :
  estimateSetupTime [expressEntry] [] = bucket_of (half_minutes 1 0)
  /\ bucket_rank (estimateSetupTime [expressEntry] [])
     <= bucket_rank (estimateSetupTime [expressEntry] [database; webServer]).
Proof.
  apply (setup_time_monotonic [expressEntry] [expressEntry] [] [database; webServer]);
    cbn; lia.
Defined.

Lemma composeObject_app repoData app :
  Compose.app (Compose.services (composeObject repoData)) = Some app ->
  RepoData.techStack repoData <> []
  /\ Compose.build app = "."
  /\ Compose.app_ports app
     = [portMapping (webPort (RepoData.services repoData))
                    (webPort (RepoData.services repoData))]
  /\ Compose.app_volumes app = [".:/workspace"]
  /\ Compose.depends_on app
     = (if has_service_named (RepoData.services repoData) "Database" then ["db"] else [])
       ++ (if has_service_named (RepoData.services repoData) "Redis"
           then ["redis"] else []).
Proof.
  unfold composeObject. cbn [Compose.app Compose.services].
  destruct (RepoData.techStack repoData) as [|tech techStack]; cbn [head].
  - destruct (has_service_named _ "Database"), (has_service_named _ "Redis");
      discriminate.
  - destruct (has_service_named _ "Database"), (has_service_named _ "Redis");
      intros [= <-]; repeat split; discriminate.
Qed.

Lemma composeObject_app_exists repoData :
  RepoData.techStack repoData <> [] ->
  exists app, Compose.app (Compose.services (composeObject repoData)) = Some app.
Proof.
  unfold composeObject. cbn [Compose.app Compose.services].
  destruct (RepoData.techStack repoData) as [|tech techStack]; [congruence|].
  intros _. cbn [head].
  destruct (has_service_named _ "Database"), (has_service_named _ "Redis");
    eexists; reflexivity.
Qed.

Lemma composeObject_volumes repoData :
  Compose.volumes (composeObject repoData)
  = if has_service_named (RepoData.services repoData) "Database"
    then Some ["db_data"] else None.
Proof. reflexivity. Qed.

Lemma composeObject_db repoData :
  is_Some (Compose.db (Compose.services (composeObject repoData)))
  <-> has_service_named (RepoData.services repoData) "Database" = true.
Proof.
  unfold composeObject. cbn [Compose.db Compose.services].
  destruct (has_service_named _ "Database"); split;
    (eauto || discriminate || (intros [? ?]; discriminate)).
Qed.

Lemma composeObject_redis repoData :
  is_Some (Compose.redis (Compose.services (composeObject repoData)))
  <-> has_service_named (RepoData.services repoData) "Redis" = true.
Proof.
  unfold composeObject. cbn [Compose.redis Compose.services].
  destruct (has_service_named _ "Redis"); split;
    (eauto || discriminate || (intros [? ?]; discriminate)).
Qed.







(** C4, as the code has it.  With a service entry named Database the
    compose object that [generateDockerCompose] builds declares the one
    volume [db_data] at its root and has a database block, and the
    dependency list of the primary service, which exists when the tech
    stack is not empty, contains [db].  For every profile the root volume
    is declared exactly when the database block is there.  With a YAML
    module that has [dump], the orchestration document is the header
    followed by the print of that object. *)
Theorem database_volume_and_dependency repoData :
  let compose := composeObject repoData in
  (has_service_named (RepoData.services repoData) "Database" = true ->
     Compose.volumes compose = Some ["db_data"]
     /\ is_Some (Compose.db (Compose.services compose))
     /\ (forall app, Compose.app (Compose.services compose) = Some app ->
                     In "db" (Compose.depends_on app))
     /\ (RepoData.techStack repoData <> [] ->
         exists app, Compose.app (Compose.services compose) = Some app
                     /\ In "db" (Compose.depends_on app)))
  /\ (is_Some (Compose.volumes compose)
      <-> is_Some (Compose.db (Compose.services compose)))
  /\ (has_service_named (RepoData.services repoData) "Database" = false ->
      Compose.volumes compose = None /\ Compose.db (Compose.services compose) = None)
  /\ (forall yaml now_iso printer, dump yaml = Some printer ->
        generateDockerCompose yaml now_iso repoData
        = Ok (composeHeader (RepoData.name repoData) now_iso +:+ printer compose)).
Proof.
  intros compose. subst compose. split; [|split; [|split]].
  - intros Hdb.
    assert (forall app,
              Compose.app (Compose.services (composeObject repoData)) = Some app ->
              In "db" (Compose.depends_on app)) as Hdep.
    { intros app Happ. apply composeObject_app in Happ as (_ & _ & _ & _ & ->).
      rewrite Hdb. left. reflexivity. }
    rewrite composeObject_volumes, Hdb.
    split; [reflexivity|]. split; [apply composeObject_db; exact Hdb|].
    split; [exact Hdep|].
    intros Hts. destruct (composeObject_app_exists repoData Hts) as [app Happ].
    exists app. split; [exact Happ|]. apply Hdep. exact Happ.
  - rewrite composeObject_db, composeObject_volumes.
    destruct (has_service_named _ "Database"); split;
      (eauto || discriminate || (intros [? ?]; discriminate)).
  - intros Hdb. rewrite composeObject_volumes, Hdb. split; [reflexivity|].
    destruct (Compose.db (Compose.services (composeObject repoData))) eqn:Hblock;
      [|reflexivity].
    assert (is_Some (Compose.db (Compose.services (composeObject repoData)))) as Hsome
      by (rewrite Hblock; eauto).
    apply composeObject_db in Hsome. congruence.
  - intros yaml now_iso printer Hdump. apply generateDockerCompose_prints. exact Hdump.
Qed.

Lemma database_volume_and_dependency_witness :
  Compose.volumes (composeObject shopProfile) = Some ["db_data"]
  /\ (exists app, Compose.app (Compose.services (composeObject shopProfile)) = Some app
                  /\ In "db" (Compose.depends_on app))
  /\ generateDockerCompose volumePrinter "2024-01-01T00:00:00.000Z" shopProfile
     = Ok (composeHeader "shop" "2024-01-01T00:00:00.000Z" +:+ "volumes: db_data").
Proof.
  pose proof (database_volume_and_dependency shopProfile) as (Hdb & _ & _ & Hdoc).
  destruct (Hdb eq_refl) as (Hvol & _ & _ & Happ).
  split; [exact Hvol|]. split; [apply Happ; discriminate|].
  exact (Hdoc volumePrinter "2024-01-01T00:00:00.000Z" _ eq_refl).
Defined.

(** C4 as stated fails: the schema profile has a database entry and an
    empty tech stack, so there is no primary service whose dependency list
    could contain the database block. *)
Lemma database_claim_refuted : ~ database_claim schemaProfile.
Proof.
  intros H. destruct (H eq_refl) as (_ & (app & Happ & _) & _).
  vm_compute in Happ. discriminate Happ.
Qed.

(** C10 fails on the code.  With an empty tech stack the compose object
    that [generateDockerCompose] builds has no primary service at all,
    hence no application port mapping, no workspace mount and no dependency
    list, while its database and cache blocks are there exactly when a
    service entry named Database, respectively Redis, is; but the call of
    [dump] of the package [yaml], which has none, then throws: no
    orchestration document is produced, so no backing-service block is
    emitted. *)
Theorem empty_stack_no_primary_service repoData now_iso :
  RepoData.techStack repoData = [] ->
  let services := Compose.services (composeObject repoData) in
  Compose.app services = None
  /\ Compose.app_ports <$> Compose.app services = None
  /\ Compose.app_volumes <$> Compose.app services = None
  /\ Compose.depends_on <$> Compose.app services = None
  /\ (is_Some (Compose.db services)
      <-> has_service_named (RepoData.services repoData) "Database" = true)
  /\ (is_Some (Compose.redis services)
      <-> has_service_named (RepoData.services repoData) "Redis" = true)
  /\ generateDockerCompose yaml_package now_iso repoData = Throw TypeError.
Proof.
  intros Hts services.
  assert (Compose.app services = None) as Happ.
  { subst services. unfold composeObject. cbn [Compose.app Compose.services].
    rewrite Hts. cbn [head].
    destruct (has_service_named _ "Database"), (has_service_named _ "Redis");
      reflexivity. }
  rewrite Happ. do 4 (split; [reflexivity|]).
  subst services.
  split; [apply composeObject_db|]. split; [apply composeObject_redis|].
  apply generateDockerCompose_throws.
Qed.

Lemma empty_stack_no_primary_service_witness :
  Compose.app (Compose.services (composeObject schemaProfile)) = None
  /\ is_Some (Compose.db (Compose.services (composeObject schemaProfile)))
  /\ generateDockerCompose yaml_package "2024-01-01T00:00:00.000Z" schemaProfile
     = Throw TypeError.
Proof.
  pose proof (empty_stack_no_primary_service schemaProfile
                "2024-01-01T00:00:00.000Z" eq_refl)
    as (Happ & _ & _ & _ & Hdb & _ & Hthrows).
  split; [exact Happ|]. split; [apply Hdb; reflexivity|exact Hthrows].
Defined.

(** Any package descriptor that [JSON.parse] rejects aborts the detection,
    whatever else the repository holds. *)
Lemma unparseable_package_json_throws fetch files text e :
  has_path files "package.json" = true ->
  fetch "package.json" = Some text -> text <> EmptyString ->
  JSON_parse text = Throw e ->
  detectTechStack fetch files = Throw e.
Proof.
  intros Hpath Hfetch Hne Hparse.
  rewrite detectTechStack_stages. unfold nodeStage, config.
  rewrite fetchConfigFiles_lookup, Hpath.
  change (bool_decide ("package.json" ∈ keyFiles)) with true. cbn [andb].
  rewrite Hfetch.
  destruct (String.eqb_spec text EmptyString); [contradiction|].
  unfold nodeEntry. rewrite Hparse. reflexivity.
Qed.

(** The sibling builders do degrade: a Go module file or a gem file without
    a version they can read gives the default version. *)
Example version_extractors_degrade :
  Tech.version (goEntry "{") = JStr "latest"
  /\ Tech.version (rubyEntry "{") = JStr "latest".
Proof. split; reflexivity. Qed.

(** *** References to a repository *)

Lemma chars_app (a b : string) : chars (a +:+ b) = chars a ++ chars b.
Proof.
  induction a as [|x a IH]; [reflexivity|].
  change (x :: chars (a +:+ b) = x :: (chars a ++ chars b)). f_equal. exact IH.
Qed.

Lemma str_chars (s : string) : str (chars s) = s.
Proof. apply string_of_list_ascii_of_string. Qed.

Lemma chars_str (l : list ascii) : chars (str l) = l.
Proof. apply list_ascii_of_string_of_list_ascii. Qed.

Lemma str_app (a b : list ascii) : str (a ++ b) = str a +:+ str b.
Proof.
  induction a as [|x a IH]; [reflexivity|].
  change (String x (str (a ++ b)) = String x (str a +:+ str b)). f_equal. exact IH.
Qed.

Lemma is_prefix_of_app (p : string) (l : list ascii) :
  Regex.is_prefix_of p (chars p ++ l) = Some l.
Proof.
  unfold Regex.is_prefix_of. induction (chars p) as [|a q IH]; [reflexivity|].
  cbn. rewrite Ascii.eqb_refl. exact IH.
Qed.

Lemma is_prefix_of_prefix (p s : string) :
  String.prefix p s = false -> Regex.is_prefix_of p (chars s) = None.
Proof.
  unfold Regex.is_prefix_of. revert s.
  induction p as [|a p IH]; intros s; [destruct s; discriminate|].
  destruct s as [|b s]; [reflexivity|]. cbn.
  destruct (Ascii.eqb_spec a b) as [->|Hne].
  - destruct (ascii_dec b b) as [_|Hbb]; [apply IH|contradiction].
  - reflexivity.
Qed.

Lemma span_forallb (p : ascii -> bool) (l run rest : list ascii) :
  Regex.span p l = (run, rest) -> forallb p run = true /\ l = run ++ rest.
Proof.
  revert run rest. induction l as [|c l IH]; intros run rest; cbn.
  - intros [= <- <-]. split; reflexivity.
  - destruct (p c) eqn:Hc.
    + destruct (Regex.span p l) as [run' rest'] eqn:Hspan. intros [= <- <-].
      destruct (IH _ _ eq_refl) as [Hall ->]. cbn. rewrite Hc, Hall. split; reflexivity.
    + intros [= <- <-]. split; reflexivity.
Qed.

Lemma span_app (p : ascii -> bool) (run rest : list ascii) :
  forallb p run = true ->
  match rest with [] => True | c :: _ => p c = false end ->
  Regex.span p (run ++ rest) = (run, rest).
Proof.
  intros Hrun Hrest. induction run as [|c run IH]; cbn.
  - destruct rest as [|c rest]; [reflexivity|]. cbn. rewrite Hrest. reflexivity.
  - cbn in Hrun. apply andb_true_iff in Hrun as [Hc Hrun].
    rewrite Hc, (IH Hrun). reflexivity.
Qed.

Lemma is_prefix_of_Some (p s : string) r :
  Regex.is_prefix_of p (chars s) = Some r -> String.prefix p s = true.
Proof.
  intros H. destruct (String.prefix p s) eqn:Hp; [reflexivity|].
  rewrite (is_prefix_of_prefix _ _ Hp) in H. discriminate.
Qed.

Lemma github_at_groups (l : list ascii) owner repo :
  Regex.github_at l = Some (owner, repo) ->
  owner <> EmptyString /\ forallb Regex.not_slash (chars owner) = true
  /\ repo <> EmptyString /\ forallb Regex.repo_char (chars repo) = true.
Proof.
  unfold Regex.github_at. destruct (Regex.is_prefix_of _ l) as [r|]; [|discriminate].
  destruct (Regex.span Regex.not_slash r) as [[|o os] [|s r']] eqn:Ho; try discriminate.
  destruct (Regex.span Regex.repo_char r') as [[|c cs] rest] eqn:Hr; try discriminate.
  intros H.
  assert (owner = str (o :: os) /\ repo = str (c :: cs)) as [-> ->]
    by (split; congruence).
  apply span_forallb in Ho as [Ho _], Hr as [Hr _].
  rewrite !chars_str. repeat split; (assumption || discriminate).
Qed.

Lemma github_match_groups (l : list ascii) owner repo :
  Regex.github_match l = Some (owner, repo) ->
  exists l', Regex.github_at l' = Some (owner, repo) /\ exists before, l = before ++ l'.
Proof.
  induction l as [|c l IH]; cbn [Regex.github_match].
  - destruct (Regex.github_at []) eqn:H; [|discriminate].
    intros [= ->]. exists []. split; [exact H|]. exists []. reflexivity.
  - destruct (Regex.github_at (c :: l)) eqn:H.
    + intros [= ->]. exists (c :: l). split; [exact H|]. exists []. reflexivity.
    + intros Hm. destruct (IH Hm) as (l' & Hat & before & ->).
      exists l'. split; [exact Hat|]. exists (c :: before). reflexivity.
Qed.

Lemma includes_app (before s p : string) :
  String.prefix p s = true -> includes (before +:+ s) p = true.
Proof.
  intros Hp. induction before as [|c before IH].
  - change (includes s p = true).
    destruct s; unfold includes; fold includes; rewrite Hp; reflexivity.
  - change (includes (String c (before +:+ s)) p = true). cbn [includes].
    rewrite IH. apply orb_true_r.
Qed.

Lemma stripGitSuffix_chars (repo : string) (p : ascii -> bool) :
  forallb p (chars repo) = true -> forallb p (chars (stripGitSuffix repo)) = true.
Proof.
  unfold stripGitSuffix. destruct (endsWith repo ".git"); [|auto].
  rewrite chars_str. rewrite !forallb_forall. intros H x Hx. apply H.
  apply in_rev in Hx. apply in_rev.
  rewrite <- (firstn_skipn 4 (rev (chars repo))). apply in_or_app. right. exact Hx.
Qed.

(** X1: a reference that does not contain [github.com/] is rejected as an
    invalid GitHub URL. *)
Theorem parseGithubUrl_rejects url :
  includes url "github.com/" = false -> parseGithubUrl url = InvalidGitHubURL.
Proof.
  unfold parseGithubUrl. intros H.
  assert (Regex.github_match (chars url) = None) as ->; [|reflexivity].
  induction url as [|c url IH]; cbn [includes] in H.
  - reflexivity.
  - apply orb_false_iff in H as [Hp Hrest].
    change (chars (String c url)) with (c :: chars url). cbn [Regex.github_match].
    unfold Regex.github_at at 1.
    change (c :: chars url) with (chars (String c url)).
    rewrite (is_prefix_of_prefix _ _ Hp). apply IH. exact Hrest.
Qed.

Lemma parseGithubUrl_rejects_witness :
  parseGithubUrl "https://gitlab.com/octo/shop" = InvalidGitHubURL.
Proof. apply parseGithubUrl_rejects. reflexivity. Defined.

(** X2: what an accepted reference yields.  The reference contains
    [github.com/]; the owner is not empty and holds no slash; the
    repository name holds no slash and no question mark (it can be empty,
    when the reference names a repository called [.git]). *)
Theorem parseGithubUrl_parsed url owner repo :
  parseGithubUrl url = Parsed owner repo ->
  includes url "github.com/" = true
  /\ owner <> EmptyString
  /\ forallb Regex.not_slash (chars owner) = true
  /\ forallb Regex.repo_char (chars repo) = true.
Proof.
  unfold parseGithubUrl.
  destruct (Regex.github_match (chars url)) as [[o r]|] eqn:Hm; [|discriminate].
  intros [= <- <-].
  destruct (github_match_groups _ _ _ Hm) as (l' & Hat & before & Hl).
  destruct (github_at_groups _ _ _ Hat) as (Ho & Hos & _ & Hr).
  split; [|split; [exact Ho|split; [exact Hos|apply stripGitSuffix_chars; exact Hr]]].
  assert (url = str before +:+ str l') as ->.
  { rewrite <- (str_chars url), Hl. apply str_app. }
  apply includes_app. unfold Regex.github_at in Hat.
  destruct (Regex.is_prefix_of "github.com/" l') as [r'|] eqn:Hp; [|discriminate].
  rewrite <- (chars_str l') in Hp. apply (is_prefix_of_Some _ _ _ Hp).
Qed.

Lemma parseGithubUrl_parsed_witness :
  includes "https://github.com/octo/.git" "github.com/" = true
  /\ "octo" <> EmptyString
  /\ forallb Regex.not_slash (chars "octo") = true
  /\ forallb Regex.repo_char (chars EmptyString) = true.
Proof. apply (parseGithubUrl_parsed "https://github.com/octo/.git"). reflexivity. Defined.

Lemma github_match_skip (before l : list ascii) :
  forallb (fun c => negb (Ascii.eqb c "g")) before = true ->
  Regex.github_match (before ++ l) = Regex.github_match l.
Proof.
  induction before as [|c before IH]; [reflexivity|]. cbn [forallb app].
  intros H. apply andb_true_iff in H as [Hc H].
  cbn [Regex.github_match]. unfold Regex.github_at at 1, Regex.is_prefix_of.
  change (chars "github.com/") with ("g"%char :: chars "ithub.com/").
  cbn iota beta. rewrite Ascii.eqb_sym. apply negb_true_iff in Hc. rewrite Hc.
  apply IH. exact H.
Qed.

Lemma github_at_reference (owner repo rest : list ascii) :
  owner <> [] -> forallb Regex.not_slash owner = true ->
  repo <> [] -> forallb Regex.repo_char repo = true ->
  match rest with [] => True | c :: _ => Regex.repo_char c = false end ->
  Regex.github_at (chars "github.com/" ++ owner ++ "/"%char :: repo ++ rest)
  = Some (str owner, str repo).
Proof.
  intros Ho Hos Hr Hrs Hrest. unfold Regex.github_at.
  rewrite is_prefix_of_app.
  rewrite (span_app Regex.not_slash owner ("/"%char :: repo ++ rest) Hos eq_refl).
  destruct owner as [|o owner]; [contradiction|].
  rewrite (span_app Regex.repo_char repo rest Hrs Hrest).
  destruct repo as [|r repo]; [contradiction|]. reflexivity.
Qed.

Lemma github_match_reference (before owner repo rest : list ascii) :
  forallb (fun c => negb (Ascii.eqb c "g")) before = true ->
  owner <> [] -> forallb Regex.not_slash owner = true ->
  repo <> [] -> forallb Regex.repo_char repo = true ->
  match rest with [] => True | c :: _ => Regex.repo_char c = false end ->
  Regex.github_match (before ++ chars "github.com/" ++ owner ++ "/"%char :: repo ++ rest)
  = Some (str owner, str repo).
Proof.
  intros Hb Ho Hos Hr Hrs Hrest. rewrite (github_match_skip _ _ Hb).
  pose proof (github_at_reference owner repo rest Ho Hos Hr Hrs Hrest) as Hat.
  change (chars "github.com/" ++ owner ++ "/"%char :: repo ++ rest)
    with ("g"%char :: chars "ithub.com/" ++ owner ++ "/"%char :: repo ++ rest) in *.
  cbn [Regex.github_match]. rewrite Hat. reflexivity.
Qed.

(** X3: the usual forms of a reference are accepted.  When nothing before
    [github.com/] holds the letter g, the owner is a non-empty run without
    slash and the repository a non-empty run without slash or question
    mark, followed by nothing, by a slash or by a question mark, the
    reference yields that owner and that repository, less a final [.git]. *)
Theorem parseGithubUrl_reference before owner repo rest :
  forallb (fun c => negb (Ascii.eqb c "g")) (chars before) = true ->
  owner <> EmptyString -> forallb Regex.not_slash (chars owner) = true ->
  repo <> EmptyString -> forallb Regex.repo_char (chars repo) = true ->
  match chars rest with [] => True | c :: _ => Regex.repo_char c = false end ->
  parseGithubUrl (before +:+ "github.com/" +:+ owner +:+ "/" +:+ repo +:+ rest)
  = Parsed owner (stripGitSuffix repo).
Proof.
  intros Hb Ho Hos Hr Hrs Hrest. unfold parseGithubUrl. rewrite !chars_app.
  change (chars "/" ++ chars repo ++ chars rest)
    with ("/"%char :: chars repo ++ chars rest).
  rewrite github_match_reference; try assumption.
  - rewrite !str_chars. reflexivity.
  - destruct owner; [contradiction|discriminate].
  - destruct repo; [contradiction|discriminate].
Qed.

Lemma parseGithubUrl_reference_witness :
  parseGithubUrl ("https://" +:+ "github.com/" +:+ "octo" +:+ "/" +:+ "shop.git"
                  +:+ "?tab=readme")
  = Parsed "octo" (stripGitSuffix "shop.git").
Proof.
  apply (parseGithubUrl_reference "https://" "octo" "shop.git" "?tab=readme");
    (reflexivity || discriminate).
Defined.

Lemma stripGitSuffix_git (name : string) : stripGitSuffix (name +:+ ".git") = name.
Proof.
  unfold stripGitSuffix, endsWith.
  rewrite chars_app, rev_app_distr, str_app.
  assert (forall a b, String.prefix a (a +:+ b) = true) as Hpre.
  { intros a b. induction a as [|x a IH]; [destruct b; reflexivity|].
    change (String.prefix (String x a) (String x (a +:+ b)) = true). cbn.
    destruct (ascii_dec x x); [exact IH|contradiction]. }
  rewrite Hpre. change (rev (chars ".git")) with (chars "tig.").
  change (drop 4 (chars "tig." ++ rev (chars name))) with (rev (chars name)).
  rewrite rev_involutive. apply str_chars.
Qed.

(** X4: the reference of a clone, which ends in [.git], yields the name
    without that ending; the name itself may be anything without slash or
    question mark, the empty name included. *)
Theorem parseGithubUrl_clone_url before owner name :
  forallb (fun c => negb (Ascii.eqb c "g")) (chars before) = true ->
  owner <> EmptyString -> forallb Regex.not_slash (chars owner) = true ->
  forallb Regex.repo_char (chars name) = true ->
  parseGithubUrl (before +:+ "github.com/" +:+ owner +:+ "/" +:+ name +:+ ".git")
  = Parsed owner name.
Proof.
  intros Hb Ho Hos Hn. unfold parseGithubUrl. rewrite !chars_app.
  replace (chars "/" ++ chars name ++ chars ".git")
    with ("/"%char :: (chars name ++ chars ".git") ++ [])
    by (rewrite app_nil_r; reflexivity).
  rewrite github_match_reference; try assumption.
  - rewrite !str_chars, <- chars_app, str_chars, stripGitSuffix_git. reflexivity.
  - destruct owner; [contradiction|discriminate].
  - destruct (chars name); discriminate.
  - rewrite forallb_app, Hn. reflexivity.
  - exact I.
Qed.

Lemma parseGithubUrl_clone_url_witness :
  parseGithubUrl ("https://" +:+ "github.com/" +:+ "octo" +:+ "/" +:+ "shop" +:+ ".git")
  = Parsed "octo" "shop".
Proof.
  apply (parseGithubUrl_clone_url "https://" "octo" "shop"); (reflexivity || discriminate).
Defined.

(** *** Directory traversal *)

Lemma Item_induction (P : Item -> Prop) :
  (forall type path name size contents,
      (forall items, contents = Some items -> Forall P items) ->
      P (Entry type path name size contents)) ->
  forall item, P item.
Proof.
  intros H. fix IH 1. intros [type path name size contents]. apply H.
  destruct contents as [items|]; [|discriminate].
  intros items' [= <-].
  induction items as [|i r IHr]; constructor; [apply IH|exact IHr].
Qed.


Lemma withoutGit_Some type path name size items :
  withoutGit (Entry type path name size (Some items))
  = Entry type path name size (Some (pruneList items)).
Proof.
  cbn [withoutGit]. f_equal. f_equal.
  induction items as [|i r IH]; [reflexivity|].
  cbn [pruneList flat_map]. destruct (is_git_dir i); cbn [app]; rewrite IH; reflexivity.
Qed.

Lemma withoutGit_fields item :
  item_type (withoutGit item) = item_type item
  /\ item_path (withoutGit item) = item_path item
  /\ item_name (withoutGit item) = item_name item
  /\ item_size (withoutGit item) = item_size item.
Proof. destruct item. repeat split. Qed.

Lemma fetchFileStructure_unfold dir :
  fetchFileStructure dir =
    match item_contents dir with
    | None => None
    | Some response => collectFiles fetchFileStructure (item_path dir) response []
    end.
Proof. destruct dir. reflexivity. Qed.

Lemma collectFiles_pruned path items files :
  Forall (fun i => fetchFileStructure (withoutGit i) = fetchFileStructure i) items ->
  collectFiles fetchFileStructure path (pruneList items) files
  = collectFiles fetchFileStructure path items files.
Proof.
  intros Hall. revert files.
  induction Hall as [|i r Hi Hall IH]; intros files; [reflexivity|].
  cbn [pruneList flat_map]. fold (pruneList r). cbn [collectFiles].
  destruct (is_git_dir i) eqn:Hgit.
  - cbn [app]. unfold is_git_dir in Hgit. apply andb_true_iff in Hgit as [Ht Hn].
    unfold is_file, is_open_dir. apply String.eqb_eq in Ht. rewrite Ht, Hn. cbn.
    apply IH.
  - cbn [app collectFiles].
    destruct (withoutGit_fields i) as (Ht & Hp & Hn & Hs).
    unfold is_file, is_open_dir. rewrite Ht, Hp, Hn, Hs, Hi.
    destruct (String.eqb (item_type i) "file"); [apply IH|].
    destruct (String.eqb (item_type i) "dir" && negb (String.eqb (item_name i) ".git"));
      [|apply IH].
    destruct (segments path <? 3)%nat; [|apply IH].
    destruct (fetchFileStructure i); [apply IH|reflexivity].
Qed.

(** X5: the traversal never enters a directory called [.git]: its result,
    a rejected request included, is the one it has on the tree from which
    every such directory is removed. *)
Theorem fetchFileStructure_skips_git dir :
  fetchFileStructure (withoutGit dir) = fetchFileStructure dir.
Proof.
  induction dir as [type path name size contents IH] using Item_induction.
  destruct contents as [items|]; [|reflexivity].
  rewrite withoutGit_Some, !fetchFileStructure_unfold. cbn [item_contents item_path].
  apply collectFiles_pruned. apply IH. reflexivity.
Qed.


Lemma api_paths_Some type path name size items :
  api_paths (Entry type path name size (Some items)) = forallb (api_child path) items.
Proof.
  cbn [api_paths item_contents item_path].
  induction items as [|i r IH]; [reflexivity|].
  cbn [forallb]. rewrite <- IH. unfold api_child. reflexivity.
Qed.

Lemma segments_app (a b : string) : segments (a +:+ b) + 1 = segments a + segments b.
Proof.
  unfold segments. rewrite chars_app, List.filter_app, length_app. lia.
Qed.

Lemma segments_name (name : string) :
  forallb Regex.not_slash (chars name) = true -> segments name = 1.
Proof.
  unfold segments. intros H. f_equal.
  induction (chars name) as [|c l IH]; [reflexivity|].
  cbn in H. apply andb_true_iff in H as [Hc H]. cbn.
  unfold Regex.not_slash in Hc. apply negb_true_iff in Hc. rewrite Hc. apply IH. exact H.
Qed.

Lemma segments_child (parent name : string) :
  forallb Regex.not_slash (chars name) = true ->
  segments (child_path parent name) <= segments parent + 1.
Proof.
  intros Hn. unfold child_path. destruct (String.eqb parent EmptyString).
  - rewrite (segments_name _ Hn). unfold segments. lia.
  - pose proof (segments_app parent ("/" +:+ name)) as H1.
    pose proof (segments_app "/" name) as H2.
    rewrite (segments_name _ Hn) in H2.
    change (segments "/") with 2 in H2. lia.
Qed.


Lemma collectFiles_depth path items :
  Forall (fun i =>
            api_paths i = true ->
            forall files,
              fetchFileStructure i = Some files ->
              Forall (within (Nat.max 4 (segments (item_path i) + 1))) files)
         items ->
  forallb (api_child path) items = true ->
  forall acc files,
    Forall (within (Nat.max 4 (segments path + 1))) acc ->
    collectFiles fetchFileStructure path items acc = Some files ->
    Forall (within (Nat.max 4 (segments path + 1))) files.
Proof.
  intros Hall.
  induction Hall as [|i r Hi Hall IH]; intros Hapi acc files Hacc; cbn [collectFiles].
  - intros [= <-]. exact Hacc.
  - cbn [forallb] in Hapi. apply andb_true_iff in Hapi as [Hchild Hapi].
    unfold api_child in Hchild.
    apply andb_true_iff in Hchild as [Hchild Hsub].
    apply andb_true_iff in Hchild as [Hpath Hname].
    apply String.eqb_eq in Hpath.
    pose proof (segments_child path (item_name i) Hname) as Hseg.
    rewrite <- Hpath in Hseg.
    destruct (is_file i).
    + apply IH; [exact Hapi|]. apply Forall_app. split; [exact Hacc|].
      constructor; [|constructor]. unfold within. cbn [FileEntry.path]. lia.
    + destruct (is_open_dir i); [|apply IH; assumption].
      destruct (Nat.ltb_spec (segments path) 3) as [Hlt|Hge]; [|apply IH; assumption].
      destruct (fetchFileStructure i) as [sub|] eqn:Hfetch; [|discriminate].
      apply IH; [exact Hapi|]. apply Forall_app. split; [exact Hacc|].
      specialize (Hi Hsub sub eq_refl).
      eapply Forall_impl; [exact Hi|]. unfold within. intros f Hf. cbn beta in Hf. lia.
Qed.

Lemma fetchFileStructure_depth dir :
  api_paths dir = true ->
  forall files, fetchFileStructure dir = Some files ->
                Forall (within (Nat.max 4 (segments (item_path dir) + 1))) files.
Proof.
  induction dir as [type path name size contents IH] using Item_induction.
  destruct contents as [items|]; [|discriminate].
  rewrite api_paths_Some, fetchFileStructure_unfold. cbn [item_contents item_path].
  intros Hapi files Hfetch.
  eapply collectFiles_depth; [apply IH; reflexivity|exact Hapi|constructor|exact Hfetch].
Qed.

(** X6: the depth of the traversal.  When the API reports each item under
    the path of its directory followed by its name, a traversal from the
    root lists no file whose path has more than four segments: the files
    of a directory three levels down are listed, its subdirectories are
    not entered. *)
Theorem fetchFileStructure_four_segments root files :
  item_path root = EmptyString -> api_paths root = true ->
  fetchFileStructure root = Some files ->
  Forall (fun f => segments (FileEntry.path f) <= 4) files.
Proof.
  intros Hroot Hapi Hfetch.
  pose proof (fetchFileStructure_depth root Hapi files Hfetch) as H.
  rewrite Hroot in H. exact H.
Qed.

Lemma fetchFileStructure_four_segments_witness :
  Forall (fun f => segments (FileEntry.path f) <= 4)
         [FileEntry.mk "README.md" "README.md" 120;
          FileEntry.mk "src/server.js" "server.js" 640].
Proof.
  apply (fetchFileStructure_four_segments sampleRepository); reflexivity.
Defined.

(** The bound is reached: the file three directories down is listed, the
    one four directories down is not. *)
Example fetchFileStructure_deep :
  api_paths deepRepository = true
  /\ (map FileEntry.path <$> fetchFileStructure deepRepository)
     = Some ["a/1.txt"; "a/b/2.txt"; "a/b/c/3.txt"].
Proof. split; reflexivity. Qed.

(** *** What detection depends on *)


Lemma detectTechStack_ext fetch files fetch' files' :
  (forall k, fetchConfigFiles fetch files !! k = fetchConfigFiles fetch' files' !! k) ->
  hasPhpSource files = hasPhpSource files' ->
  has_path files "Dockerfile" = has_path files' "Dockerfile" ->
  detectTechStack fetch files = detectTechStack fetch' files'.
Proof.
  intros Hcfg Hphp Hdocker. rewrite !detectTechStack_stages.
  apply map_eq in Hcfg. rewrite Hcfg. unfold laterStages.
  unfold hasPhpSource in Hphp. rewrite Hphp, Hdocker. reflexivity.
Qed.

Lemma existsb_same_members {A : Type} (p : A -> bool) (l l' : list A) :
  (forall x, In x l <-> In x l') -> existsb p l = existsb p l'.
Proof.
  intros H. apply eq_true_iff_eq. rewrite !existsb_exists.
  split; intros (x & Hx & Hp); exists x; (split; [apply H; exact Hx|exact Hp]).
Qed.

Lemma existsb_path (p : string -> bool) (files : list FileEntry.t) :
  existsb (fun f => p (FileEntry.path f)) files = existsb p (map FileEntry.path files).
Proof. induction files as [|f files IH]; cbn; [reflexivity|]. rewrite IH. reflexivity. Qed.

(** X7: stack detection reads the listing only through its set of paths:
    two listings with the same paths, in any order and with any
    repetition, names or sizes, give the same result, a thrown error
    included. *)
Theorem detectTechStack_same_paths fetch files files' :
  (forall p, In p (map FileEntry.path files) <-> In p (map FileEntry.path files')) ->
  detectTechStack fetch files = detectTechStack fetch files'.
Proof.
  intros H.
  assert (forall k, has_path files k = has_path files' k) as Hpath.
  { intros k. unfold has_path.
    rewrite (existsb_path (fun p => String.eqb p k) files),
      (existsb_path (fun p => String.eqb p k) files').
    apply existsb_same_members. exact H. }
  apply detectTechStack_ext.
  - intros k. rewrite !fetchConfigFiles_lookup, Hpath. reflexivity.
  - unfold hasPhpSource.
    rewrite (existsb_path (fun p => endsWith p ".php") files),
      (existsb_path (fun p => endsWith p ".php") files').
    apply existsb_same_members. exact H.
  - apply Hpath.
Qed.

Lemma detectTechStack_same_paths_witness :
  detectTechStack goJavaFetch goJavaListing
  = detectTechStack goJavaFetch
      [FileEntry.mk "pom.xml" "pom.xml" 7; FileEntry.mk "go.mod" "go.mod" 9;
       FileEntry.mk "pom.xml" "pom.xml" 7].
Proof.
  apply detectTechStack_same_paths. intros p. cbn. tauto.
Defined.

Lemma keyFiles_plain (k : string) :
  In k keyFiles -> endsWith k ".php" = false /\ k <> "Dockerfile".
Proof.
  unfold keyFiles. cbn [In]. intros H.
  repeat (destruct H as [H|H]; [subst k; split; [reflexivity|discriminate]|]).
  contradiction.
Qed.

(** X8: a manifest whose fetch fails counts as absent: the result is the
    one for the listing without the entries of that path. *)
Theorem detectTechStack_failed_fetch fetch files (k : string) :
  In k keyFiles -> fetch k = None ->
  detectTechStack fetch files
  = detectTechStack fetch
      (List.filter (fun f => negb (String.eqb (FileEntry.path f) k)) files).
Proof.
  intros Hk Hfetch.
  set (keep := fun f => negb (String.eqb (FileEntry.path f) k)).
  assert (forall q, q <> k ->
                    has_path (List.filter keep files) q = has_path files q) as Hother.
  { intros q Hq. unfold has_path. induction files as [|f files IH]; [reflexivity|].
    cbn [List.filter existsb]. unfold keep at 1.
    destruct (String.eqb_spec (FileEntry.path f) k) as [E|E]; cbn [negb existsb].
    - rewrite IH. destruct (String.eqb_spec (FileEntry.path f) q); [congruence|reflexivity].
    - rewrite IH. reflexivity. }
  symmetry. apply detectTechStack_ext.
  - intros q. rewrite !fetchConfigFiles_lookup.
    destruct (String.eqb_spec q k) as [->|Hq].
    + rewrite Hfetch. destruct (_ && _), (_ && _); reflexivity.
    + rewrite (Hother q Hq). reflexivity.
  - clear Hother. unfold hasPhpSource.
    induction files as [|f files IH]; [reflexivity|].
    cbn [List.filter existsb]. unfold keep at 1.
    destruct (String.eqb_spec (FileEntry.path f) k) as [E|E]; cbn [negb existsb].
    + rewrite IH, E. destruct (keyFiles_plain k Hk) as [-> _]. reflexivity.
    + rewrite IH. reflexivity.
  - apply Hother. intros E. destruct (keyFiles_plain k Hk) as [_ Hd]. congruence.
Qed.

Lemma detectTechStack_failed_fetch_witness :
  detectTechStack noFetch brokenListing
  = detectTechStack noFetch
      (List.filter (fun f => negb (String.eqb (FileEntry.path f) "package.json"))
                   brokenListing).
Proof.
  apply detectTechStack_failed_fetch; [left; reflexivity|reflexivity].
Defined.

(** X9: service detection reads the listing as a set of entries: two
    listings with the same entries, in any order and with any repetition,
    give the same services. *)
Theorem detectServices_same_entries files files' :
  (forall f, In f files <-> In f files') -> detectServices files = detectServices files'.
Proof.
  intros H. unfold detectServices, hasDatabase, hasRedis, hasWeb.
  rewrite !(existsb_same_members _ files files' H).
  reflexivity.
Qed.

Lemma detectServices_same_entries_witness :
  detectServices shopListing = detectServices (rev shopListing).
Proof.
  apply detectServices_same_entries. intros f. apply in_rev.
Defined.

(** X10: a larger listing never loses a service: the services of a
    listing are among those of any listing that extends it, in the same
    order. *)
Theorem detectServices_monotone files more :
  sublist (detectServices files) (detectServices (files ++ more)).
Proof.
  unfold detectServices, hasDatabase, hasRedis, hasWeb. rewrite !existsb_app.
  destruct (existsb _ files), (existsb _ files), (existsb _ files),
    (existsb _ more), (existsb _ more), (existsb _ more); cbn;
    repeat first [apply sublist_nil_l | apply sublist_skip | apply sublist_cons].
Qed.

Lemma nodeEntry_Throw text e :
  nodeEntry text = Throw e <->
  (e = SyntaxError /\ JSON_parse text = Throw SyntaxError)
  \/ (e = TypeError /\ JSON_parse text = Ok JNull).
Proof.
  unfold nodeEntry.
  destruct (JSON_parse text) as [pj|e'] eqn:Hp.
  - destruct pj; cbn; split;
      solve [discriminate
            | intros [[_ ?]|[_ ?]]; discriminate
            | intros [= <-]; right; split; reflexivity
            | intros [[_ ?]|[-> _]]; [discriminate|reflexivity]].
  - assert (e' = SyntaxError) as ->.
    { unfold JSON_parse in Hp.
      destruct (lex LDefault (chars text)) as [ts|]; [|congruence].
      destruct (run EValue [] ts); congruence. }
    cbn. split.
    + intros [= <-]. left. split; reflexivity.
    + intros [[-> _]|[_ ?]]; [reflexivity|discriminate].
Qed.

(** X11: when stack detection throws.  It throws exactly when the package
    descriptor is in the listing and was fetched with a non-empty text that
    either is not JSON (a syntax error) or is the JSON value [null] (a type
    error, on reading [engines]); no other manifest can make it throw. *)
Theorem detectTechStack_throws fetch files e :
  detectTechStack fetch files = Throw e <->
  exists text,
    has_path files "package.json" = true
    /\ fetch "package.json" = Some text /\ text <> EmptyString
    /\ ((e = SyntaxError /\ JSON_parse text = Throw SyntaxError)
        \/ (e = TypeError /\ JSON_parse text = Ok JNull)).
Proof.
  rewrite detectTechStack_stages. unfold nodeStage.
  destruct (config (fetchConfigFiles fetch files) "package.json") as [text|] eqn:Hcfg.
  - apply config_fetched in Hcfg as (Hpath & Hfetch & Hne); [|left; reflexivity].
    destruct (nodeEntry text) as [entry|e'] eqn:Hentry; cbn.
    + split; [discriminate|]. intros (text' & _ & Hfetch' & _ & Hthrow).
      assert (text' = text) as -> by congruence.
      apply nodeEntry_Throw in Hthrow. congruence.
    + split.
      * intros [= <-]. exists text. repeat split; try assumption.
        apply nodeEntry_Throw. exact Hentry.
      * intros (text' & _ & Hfetch' & _ & Hthrow).
        assert (text' = text) as -> by congruence.
        apply nodeEntry_Throw in Hthrow. congruence.
  - cbn. split; [discriminate|]. intros (text & Hpath & Hfetch & Hne & _).
    assert (config (fetchConfigFiles fetch files) "package.json" = Some text) as H.
    { apply config_fetched; [left; reflexivity|]. repeat split; assumption. }
    congruence.
Qed.

(** A descriptor that holds the JSON value [null] parses and still aborts
    the detection. *)
Example null_package_json_throws :
  detectTechStack (fun k => if String.eqb k "package.json" then Some "null" else None)
                  brokenListing
  = Throw TypeError.
Proof. vm_compute. reflexivity. Qed.

Lemma stack_names fetch files ts :
  detectTechStack fetch files = Ok ts ->
  exists node_js python go java ruby rust php dart : bool,
    map Tech.name ts =
      (if node_js then ["Node.js"] else []) ++ (if python then ["Python"] else [])
      ++ (if go then ["Go"] else []) ++ (if java then ["Java"] else [])
      ++ (if ruby then ["Ruby"] else []) ++ (if rust then ["Rust"] else [])
      ++ (if php then ["PHP"] else []) ++ (if dart then ["Dart/Flutter"] else [])
      ++ (if has_path files "Dockerfile" then ["Docker"] else []).
Proof.
  intros H. apply detectTechStack_Ok in H as (node & Hnode & ->).
  rewrite map_app, (nodeStage_names _ _ Hnode), laterStages_names.
  do 8 eexists. reflexivity.
Qed.

Lemma detectTechStack_length fetch files ts :
  detectTechStack fetch files = Ok ts -> length ts <= 9.
Proof.
  intros H. apply stack_names in H as (b1 & b2 & b3 & b4 & b5 & b6 & b7 & b8 & H).
  rewrite <- (length_map Tech.name ts), H.
  generalize (has_path files "Dockerfile") as b9. intros b9.
  destruct b1, b2, b3, b4, b5, b6, b7, b8, b9; cbn; lia.
Qed.

(** X12: no stack is reported twice, and at most nine are reported. *)
Theorem detectTechStack_distinct fetch files ts :
  detectTechStack fetch files = Ok ts ->
  NoDup (map Tech.name ts) /\ length ts <= 9.
Proof.
  intros H. apply stack_names in H as (b1 & b2 & b3 & b4 & b5 & b6 & b7 & b8 & H).
  rewrite <- (length_map Tech.name ts), H.
  generalize (has_path files "Dockerfile") as b9. intros b9.
  destruct b1, b2, b3, b4, b5, b6, b7, b8, b9;
    (split; [refine (bool_decide_unpack _ _); vm_compute; exact I|cbn; lia]).
Qed.

Lemma detectTechStack_distinct_witness :
  NoDup (map Tech.name [expressEntry; pythonEntry nineRequirements])
  /\ length [expressEntry; pythonEntry nineRequirements] <= 9.
Proof.
  apply (detectTechStack_distinct mixedFetch mixedListing). vm_compute. reflexivity.
Defined.

Lemma analyzeRepository_Ok owner repo description fetch files p :
  analyzeRepository owner repo description fetch files = Ok p ->
  exists ts,
    detectTechStack fetch files = Ok ts
    /\ p = {| RepoData.owner := owner;
              RepoData.name := repo;
              RepoData.description := description;
              RepoData.files := map FileEntry.path files;
              RepoData.techStack := ts;
              RepoData.services := detectServices files;
              RepoData.ports := extractPorts (detectServices files);
              RepoData.hasDocker := has_path files "Dockerfile";
              RepoData.hasTests :=
                existsb (fun f => includes (FileEntry.path f) "test") files;
              RepoData.estimatedSetupTime :=
                estimateSetupTime ts (detectServices files) |}.
Proof.
  unfold analyzeRepository.
  destruct (detectTechStack fetch files) as [ts|]; [|discriminate].
  intros [= <-]. exists ts. split; reflexivity.
Qed.

(** X13: the container flag and the stack agree: a profile has
    [hasDocker] set exactly when its stack holds the Docker entry. *)
Theorem hasDocker_iff_docker_entry owner repo description fetch files p :
  analyzeRepository owner repo description fetch files = Ok p ->
  (RepoData.hasDocker p = true <-> In "Docker" (map Tech.name (RepoData.techStack p))).
Proof.
  intros H. apply analyzeRepository_Ok in H as (ts & Hts & ->).
  cbn [RepoData.hasDocker RepoData.techStack].
  apply stack_names in Hts as (b1 & b2 & b3 & b4 & b5 & b6 & b7 & b8 & ->).
  assert (forall l : list string, In "Docker" l <-> mem_string "Docker" l = true) as Hmem.
  { intros l. unfold mem_string. rewrite existsb_exists. split.
    - intros Hin. exists "Docker". split; [exact Hin|reflexivity].
    - intros (x & Hin & Hx). apply String.eqb_eq in Hx. subst x. exact Hin. }
  rewrite Hmem. generalize (has_path files "Dockerfile") as b9. intros b9.
  destruct b1, b2, b3, b4, b5, b6, b7, b8, b9; cbn; split; congruence.
Qed.

Lemma hasDocker_iff_docker_entry_witness :
  RepoData.hasDocker shopProfile = true
  <-> In "Docker" (map Tech.name (RepoData.techStack shopProfile)).
Proof.
  apply (hasDocker_iff_docker_entry "octo" "shop" None shopFetch shopListing).
  vm_compute. reflexivity.
Defined.

Lemma detectServices_length files : length (detectServices files) <= 3.
Proof.
  unfold detectServices.
  destruct (hasDatabase files), (hasRedis files), (hasWeb files); cbn; lia.
Qed.

(** X14: an analysis never estimates ten minutes or more: with at most
    nine stacks and three services the estimate is one of the three lower
    buckets. *)
Theorem analysis_estimate_below_ten owner repo description fetch files p :
  analyzeRepository owner repo description fetch files = Ok p ->
  RepoData.estimatedSetupTime p <> "10+ minutes"
  /\ In (RepoData.estimatedSetupTime p) ["1-2 minutes"; "2-5 minutes"; "5-10 minutes"].
Proof.
  intros H. apply analyzeRepository_Ok in H as (ts & Hts & ->).
  cbn [RepoData.estimatedSetupTime].
  apply detectTechStack_length in Hts.
  pose proof (detectServices_length files) as Hs.
  rewrite estimateSetupTime_bucket. unfold bucket_of, half_minutes.
  destruct (Nat.ltb_spec (2 + length ts + 2 * length (detectServices files)) 4);
    [split; [discriminate|cbn; tauto]|].
  destruct (Nat.ltb_spec (2 + length ts + 2 * length (detectServices files)) 10);
    [split; [discriminate|cbn; tauto]|].
  destruct (Nat.ltb_spec (2 + length ts + 2 * length (detectServices files)) 20);
    [split; [discriminate|cbn; tauto]|lia].
Qed.

Lemma analysis_estimate_below_ten_witness :
  RepoData.estimatedSetupTime shopProfile <> "10+ minutes"
  /\ In (RepoData.estimatedSetupTime shopProfile)
        ["1-2 minutes"; "2-5 minutes"; "5-10 minutes"].
Proof.
  apply (analysis_estimate_below_ten "octo" "shop" None shopFetch shopListing).
  vm_compute. reflexivity.
Defined.

(** X15: the shortest estimate is given exactly to a profile without
    services and with at most one stack entry. *)
Theorem estimate_shortest_iff (ts : list Tech.t) (ss : list Service.t) :
  estimateSetupTime ts ss = "1-2 minutes" <-> ss = [] /\ length ts <= 1.
Proof.
  rewrite estimateSetupTime_bucket. unfold bucket_of, half_minutes.
  destruct (Nat.ltb_spec (2 + length ts + 2 * length ss) 4).
  - split; [|reflexivity]. intros _. destruct ss; [split; [reflexivity|lia]|cbn in *; lia].
  - split.
    + destruct (_ <? 10)%nat; [discriminate|]. destruct (_ <? 20)%nat; discriminate.
    + intros [-> Hts]. cbn in *. lia.
Qed.

(** *** The generated descriptors *)

Lemma fold_left_push {A B : Type} (f : A -> list B) (l : list A) (acc : list B) :
  fold_left (fun acc x => acc ++ f x) l acc = acc ++ flat_map f l.
Proof.
  revert acc. induction l as [|x l IH]; intros acc; cbn.
  - symmetry. apply app_nil_r.
  - rewrite IH, <- app_assoc. reflexivity.
Qed.

Lemma fold_left_ext {A B : Type} (f g : B -> A -> B) (l : list A) (acc : B) :
  (forall b a, f b a = g b a) -> fold_left f l acc = fold_left g l acc.
Proof.
  intros H. revert acc. induction l as [|x l IH]; intros acc; cbn; [reflexivity|].
  rewrite H. apply IH.
Qed.

Lemma getRecommendedExtensions_table (techStack : list Tech.t) :
  getRecommendedExtensions techStack
  = "ms-vscode.vscode-json" :: flat_map containerExtensions techStack.
Proof.
  unfold getRecommendedExtensions.
  rewrite (fold_left_ext _ (fun acc tech => acc ++ containerExtensions tech)).
  - apply (fold_left_push containerExtensions techStack ["ms-vscode.vscode-json"]).
  - intros acc tech. unfold containerExtensions.
    destruct (name_is tech "Node.js"); [reflexivity|].
    destruct (name_is tech "Python"); [reflexivity|].
    destruct (name_is tech "Go"); [reflexivity|].
    destruct (name_is tech "Docker"); [reflexivity|]. symmetry. apply app_nil_r.
Qed.

Lemma extensionsObject_table (repoData : RepoData.t) :
  extensionsObject repoData
  = JObj [("recommendations",
           JArr (map JStr (flat_map editorRecommendations (RepoData.techStack repoData)
                           ++ generalRecommendations)))].
Proof.
  unfold extensionsObject.
  rewrite (fold_left_ext _ (fun acc tech => acc ++ editorRecommendations tech)).
  - rewrite (fold_left_push editorRecommendations _ []). reflexivity.
  - intros acc tech. unfold editorRecommendations.
    destruct (name_is tech "Node.js"); [reflexivity|].
    destruct (name_is tech "Python"); [reflexivity|].
    destruct (name_is tech "Go"); [reflexivity|].
    destruct (name_is tech "Java"); [reflexivity|].
    destruct (name_is tech "Docker"); [reflexivity|]. symmetry. apply app_nil_r.
Qed.

(** X16: the two lists of editor add-ons agree: every add-on that the
    container descriptor installs for a stack is also among the
    recommendations of the editor configuration, whatever the stack. *)
Theorem container_extensions_recommended (repoData : RepoData.t) :
  exists recommendations,
    json_field (extensionsObject repoData) "recommendations"
    = Some (JArr (map JStr recommendations))
    /\ forall extension,
         In extension (getRecommendedExtensions (RepoData.techStack repoData)) ->
         In extension recommendations.
Proof.
  rewrite extensionsObject_table, getRecommendedExtensions_table.
  eexists. split; [reflexivity|].
  intros extension [<-|Hin].
  - apply in_or_app. right. left. reflexivity.
  - apply in_or_app. left.
    apply in_flat_map in Hin as (tech & Htech & Hin). apply in_flat_map.
    exists tech. split; [exact Htech|].
    unfold containerExtensions, editorRecommendations in *.
    destruct (name_is tech "Node.js"); [cbn in *; tauto|].
    destruct (name_is tech "Python"); [cbn in *; tauto|].
    destruct (name_is tech "Go"); [exact Hin|].
    unfold name_is in *.
    destruct (String.eqb_spec (Tech.name tech) "Java") as [E|_];
      [rewrite E in Hin; cbn in Hin; contradiction|].
    destruct (String.eqb (Tech.name tech) "Docker"); exact Hin.
Qed.

Lemma getPostCreateCommand_table (techStack : list Tech.t) :
  getPostCreateCommand techStack = join " && " (omap installCommand techStack).
Proof.
  unfold getPostCreateCommand. f_equal.
  rewrite (fold_left_ext _ (fun acc tech => acc ++ option_list (installCommand tech))).
  - rewrite (fold_left_push (fun tech => option_list (installCommand tech)) _ []).
    cbn [app]. induction techStack as [|tech l IH]; [reflexivity|].
    cbn [flat_map omap list_omap]. destruct (installCommand tech); cbn; rewrite IH;
      reflexivity.
  - intros acc tech. unfold installCommand.
    destruct (name_is tech "Node.js"); [reflexivity|].
    destruct (name_is tech "Python"); [reflexivity|].
    destruct (name_is tech "Go"); [reflexivity|]. symmetry. apply app_nil_r.
Qed.

Lemma join_empty (sep : string) (l : list string) :
  Forall (fun x => x <> EmptyString) l -> join sep l = EmptyString -> l = [].
Proof.
  intros Hl. destruct Hl as [|x l Hx Hl]; [reflexivity|].
  destruct l as [|y l]; cbn [join].
  - intros ->. contradiction.
  - destruct x; [contradiction|discriminate].
Qed.

(** X17: the post-create command holds one install command per Node.js,
    Python and Go entry, in stack order, joined by [ && ]; it is empty
    exactly when the stack has no such entry. *)
Theorem getPostCreateCommand_commands (techStack : list Tech.t) :
  getPostCreateCommand techStack = join " && " (omap installCommand techStack)
  /\ (getPostCreateCommand techStack = EmptyString
      <-> Forall (fun tech => installCommand tech = None) techStack).
Proof.
  split; [apply getPostCreateCommand_table|].
  rewrite getPostCreateCommand_table. split.
  - intros H. apply join_empty in H.
    + induction techStack as [|tech l IH]; [constructor|].
      cbn [omap list_omap] in H. destruct (installCommand tech) eqn:Hc; [discriminate|].
      constructor; [exact Hc|apply IH; exact H].
    + clear H. induction techStack as [|tech l IH]; [constructor|].
      cbn [omap list_omap]. destruct (installCommand tech) as [c|] eqn:Hc; [|exact IH].
      constructor; [|exact IH]. unfold installCommand in Hc.
      destruct (name_is tech "Node.js"); [injection Hc as <-; discriminate|].
      destruct (name_is tech "Python"); [injection Hc as <-; discriminate|].
      destruct (name_is tech "Go"); [injection Hc as <-; discriminate|discriminate].
  - intros H. induction H as [|tech l Hc Hl IH]; [reflexivity|].
    cbn [omap list_omap]. rewrite Hc. exact IH.
Qed.

Lemma scriptBlocks_fold (techStack : list Tech.t) (script : string) :
  fold_left
    (fun script tech =>
       if name_is tech "Node.js" then script +:+ nodeBlock
       else if name_is tech "Python" then script +:+ pythonBlock
       else if name_is tech "Go" then script +:+ goBlock
       else script)
    techStack script
  = script +:+ String.concat EmptyString (map scriptBlock techStack).
Proof.
  assert (forall x, x +:+ EmptyString = x) as Hnil
    by (intros x; induction x as [|c x IH]; [reflexivity|];
        change (String c (x +:+ EmptyString) = String c x); f_equal; exact IH).
  assert (forall l, String.concat EmptyString l
                    = match l with [] => EmptyString
                                 | x :: r => x +:+ String.concat EmptyString r end) as Hcat.
  { intros [|x [|y r]]; [reflexivity| |reflexivity].
    cbn [String.concat]. symmetry. apply Hnil. }
  revert script. induction techStack as [|tech l IH]; intros script; cbn [fold_left map].
  - rewrite Hcat. symmetry. apply Hnil.
  - rewrite IH, (Hcat (scriptBlock tech :: _)). unfold scriptBlock.
    destruct (name_is tech "Node.js"); [apply string_app_assoc|].
    destruct (name_is tech "Python"); [apply string_app_assoc|].
    destruct (name_is tech "Go"); [apply string_app_assoc|]. reflexivity.
Qed.

(** X18: the startup script is its header, then the block of every
    Node.js, Python and Go entry in stack order (all of them, not only the
    first), then the two closing lines. *)
Theorem generateStartupScript_blocks (repoData : RepoData.t) :
  generateStartupScript repoData
  = scriptHeader (RepoData.name repoData)
    +:+ String.concat EmptyString (map scriptBlock (RepoData.techStack repoData))
    +:+ scriptFooter.
Proof.
  unfold generateStartupScript. rewrite scriptBlocks_fold, string_app_assoc. reflexivity.
Qed.

(** X19: the container descriptor forwards the derived port list: for an
    analysed profile the forwarded ports are the ports of the profile, in
    the same order. *)
Theorem forwardPorts_are_profile_ports owner repo description fetch files p :
  analyzeRepository owner repo description fetch files = Ok p ->
  json_field (devContainerObject p) "forwardPorts"
  = Some (JArr (map (fun port => JNum (of_N port)) (RepoData.ports p))).
Proof.
  intros H. apply analyzeRepository_Ok in H as (ts & _ & ->).
  cbn [devContainerObject json_field obj_get RepoData.services RepoData.ports].
  unfold extractPorts. rewrite map_map. reflexivity.
Qed.

Lemma forwardPorts_are_profile_ports_witness :
  json_field (devContainerObject shopProfile) "forwardPorts"
  = Some (JArr (map (fun port => JNum (of_N port)) (RepoData.ports shopProfile))).
Proof.
  apply (forwardPorts_are_profile_ports "octo" "shop" None shopFetch shopListing).
  vm_compute. reflexivity.
Defined.

(** X20: the container descriptor always names [app] as its service, while
    the orchestration object has a service of that name exactly when the
    tech stack is not empty: for a profile without stack the descriptor
    points at a service that the orchestration document does not declare. *)
Theorem devContainer_service (repoData : RepoData.t) :
  json_field (devContainerObject repoData) "service" = Some (JStr "app")
  /\ json_field (devContainerObject repoData) "dockerComposeFile"
     = Some (JStr "../docker-compose.yml")
  /\ (is_Some (Compose.app (Compose.services (composeObject repoData)))
      <-> RepoData.techStack repoData <> []).
Proof.
  split; [reflexivity|]. split; [reflexivity|]. split.
  - intros [app Happ]. apply composeObject_app in Happ. tauto.
  - intros Hts. destruct (composeObject_app_exists repoData Hts) as [app Happ].
    rewrite Happ. eauto.
Qed.

(** X21: the dependency list of the primary service names the backing
    service blocks of the orchestration object, all of them and nothing
    else, in the order in which they were added: [db], then [redis]. *)
Theorem depends_on_backing_services (repoData : RepoData.t) app :
  Compose.app (Compose.services (composeObject repoData)) = Some app ->
  let services := Compose.services (composeObject repoData) in
  Compose.depends_on app
  = option_list ((fun _ => "db") <$> Compose.db services)
    ++ option_list ((fun _ => "redis") <$> Compose.redis services).
Proof.
  intros Happ services. subst services.
  apply composeObject_app in Happ as (_ & _ & _ & _ & ->).
  unfold composeObject. cbn [Compose.db Compose.redis Compose.services].
  destruct (has_service_named _ "Database"), (has_service_named _ "Redis"); reflexivity.
Qed.

Lemma depends_on_backing_services_witness :
  let services := Compose.services (composeObject shopProfile) in
  [ "db" ]
  = option_list ((fun _ => "db") <$> Compose.db services)
    ++ option_list ((fun _ => "redis") <$> Compose.redis services).
Proof.
  apply (depends_on_backing_services shopProfile
           {| Compose.build := "."; Compose.app_ports := ["3000:3000"];
              Compose.app_volumes := [".:/workspace"];
              Compose.app_environment := ["NODE_ENV=development"];
              Compose.depends_on := ["db"] |}).
  reflexivity.
Defined.

Lemma obj_get_set_ne {A : Type} (k k' : string) (v : A) (o : list (string * A)) :
  k <> k' -> obj_get k (obj_set k' v o) = obj_get k o.
Proof.
  intros Hne. induction o as [|[k0 v0] o IH]; cbn.
  - destruct (String.eqb_spec k k'); [contradiction|reflexivity].
  - destruct (String.eqb_spec k' k0) as [->|Hk0]; cbn.
    + destruct (String.eqb_spec k k0); [contradiction|reflexivity].
    + rewrite IH. reflexivity.
Qed.

Lemma obj_set_keys {A : Type} (k : string) (v : A) (o : list (string * A)) :
  map fst (obj_set k v o)
  = if mem_string k (map fst o) then map fst o else map fst o ++ [k].
Proof.
  unfold mem_string. induction o as [|[k0 v0] o IH]; cbn; [reflexivity|].
  destruct (String.eqb_spec k k0) as [->|Hne]; cbn; [reflexivity|].
  rewrite IH. destruct (existsb (String.eqb k) (map fst o)); reflexivity.
Qed.

Lemma obj_set_NoDup {A : Type} (k : string) (v : A) (o : list (string * A)) :
  NoDup (map fst o) -> NoDup (map fst (obj_set k v o)).
Proof.
  intros H. rewrite obj_set_keys. destruct (mem_string k (map fst o)) eqn:Hmem; [exact H|].
  apply NoDup_app. split; [exact H|]. split; [|apply NoDup_singleton].
  intros x Hx Hk. apply list_elem_of_In in Hx. apply list_elem_of_singleton in Hk. subst x.
  unfold mem_string in Hmem.
  assert (existsb (String.eqb k) (map fst o) = true); [|congruence].
  apply existsb_exists. exists k. split; [exact Hx|apply String.eqb_refl].
Qed.

(** X22: the editor settings keep their base: whatever the stack, the five
    base settings are there with their base values (no stack overrides
    one of them), and no key occurs twice. *)
Theorem settings_keep_base (repoData : RepoData.t) :
  exists settings,
    settingsObject repoData = JObj settings
    /\ NoDup (map fst settings)
    /\ forall k v, In (k, v) baseSettings -> obj_get k settings = Some v.
Proof.
  unfold settingsObject.
  match goal with |- context [fold_left ?f _ _] => set (step := f) end.
  change [("editor.tabSize", JNum "2"); ("editor.insertSpaces", JBool true);
          ("files.autoSave", JStr "onDelay"); ("files.autoSaveDelay", JNum "1000");
          ("terminal.integrated.cwd", JStr "${workspaceFolder}")] with baseSettings.
  eexists. split; [reflexivity|].
  set (Inv := fun settings : list (string * json) =>
                NoDup (map fst settings)
                /\ forall k v, In (k, v) baseSettings -> obj_get k settings = Some v).
  assert (Inv baseSettings) as Hbase.
  { split; [refine (bool_decide_unpack _ _); vm_compute; exact I|].
    intros k v H. cbn in H.
    repeat (destruct H as [[= <- <-]|H]; [reflexivity|]). contradiction. }
  assert (forall k v, In (k, v) baseSettings ->
                      k <> "javascript.preferences.quoteStyle"
                      /\ k <> "typescript.preferences.quoteStyle"
                      /\ k <> "python.formatting.provider"
                      /\ k <> "python.defaultInterpreterPath"
                      /\ k <> "go.toolsManagement.autoUpdate") as Hfresh.
  { intros k v H. cbn in H.
    repeat (destruct H as [[= <- <-]|H]; [repeat split; discriminate|]). contradiction. }
  assert (forall ts settings, Inv settings -> Inv (fold_left step ts settings)) as Hfold.
  { induction ts as [|tech l IH]; intros settings Hinv; cbn [fold_left]; [exact Hinv|].
    apply IH. destruct Hinv as [Hnd Hget]. unfold step.
    destruct (name_is tech "Node.js");
      [|destruct (name_is tech "Python"); [|destruct (name_is tech "Go")]];
      (split; [repeat apply obj_set_NoDup; exact Hnd|]);
      intros k v Hin; destruct (Hfresh k v Hin) as (H1 & H2 & H3 & H4 & H5);
      rewrite ?obj_get_set_ne by assumption; apply Hget; exact Hin. }
  exact (Hfold _ _ Hbase).
Qed.

(** X23: the detector of the client follows the order of the
    specification's table: whatever its arguments, the names it reports
    are Node.js, Python, Docker, Java, Go, Ruby, PHP, Rust, .NET with some
    left out. *)
Theorem App_detectTechStack_order files packageJson requirements gemfile goMod :
  subseqb (map Tech.name (App.detectTechStack files packageJson requirements gemfile goMod))
          specOrder = true.
Proof.
  unfold App.detectTechStack. rewrite !push_if_app, !push_for_app, !map_app.
  generalize (App.given requirements) as py, (App.given goMod) as go,
    (App.given gemfile) as rb.
  intros [py|] [go|] [rb|];
    destruct packageJson as [descriptor|]; try destruct (truthy descriptor);
    destruct (App.includes_path files "Dockerfile"),
      (App.includes_path files "pom.xml" || App.includes_path files "build.gradle"),
      (existsb (fun f => endsWith f ".php") files),
      (App.includes_path files "Cargo.toml"),
      (existsb (fun f => endsWith f ".cs" || endsWith f ".csproj") files);
    reflexivity.
Qed.

(** X24: what the loop over the key files leaves in [configFiles]: under
    a key there is a text exactly when the key is one of the nine key
    files, some entry of the listing has it as its path, and its fetch
    succeeded, and the text is then the fetched one. *)
Theorem fetchConfigFiles_contents fetch files (k text : string) :
  fetchConfigFiles fetch files !! k = Some text
  <-> In k keyFiles /\ has_path files k = true /\ fetch k = Some text.
Proof.
  rewrite fetchConfigFiles_lookup. case_bool_decide as Hk; cbn [andb].
  - apply list_elem_of_In in Hk. destruct (has_path files k).
    + split; [intros H; auto|intros (_ & _ & H); exact H].
    + split; [discriminate|intros (_ & H & _); discriminate].
  - split; [discriminate|]. intros (Hin & _). exfalso. apply Hk.
    apply list_elem_of_In. exact Hin.
Qed.









(** Numbers count as present unless they are zero as doubles: a literal
    below half of the smallest positive double is zero, and the fallback
    version is taken in its place. *)
Example truthy_numbers :
  map (fun literal => truthy (JNum literal))
      ["0"; "-0.0"; "0e7"; "1e-400"; "2e-324"; "3e-324"; "5e-324"; "18.0"; "1e3"]
  = [false; false; false; false; false; true; true; true; true].
Proof. vm_compute. reflexivity. Qed.

Example nodeVersion_numbers :
  nodeVersion (enginePackage "18.0") = Some (JNum "18.0")
  /\ nodeVersion (enginePackage "0") = Some (JStr ">=16.0.0")
  /\ nodeVersion (enginePackage "1e-400") = Some (JStr ">=16.0.0").
Proof. repeat split; vm_compute; reflexivity. Qed.



